(** * Sitemap locator and resolver (main.go)

    A shallow embedding of the two core functions of the sitemap service,
    [getSitemapURLFromDomain] (the locator) and [parseSitemap] (the
    resolver), together with the helpers they call, and of the request
    handler [handleRequest] that calls them for the two endpoints.

    The Go standard library is not part of the repository: [url.Parse],
    [http.Client.Get], [http.Get], [ioutil.ReadAll] and [xml.Unmarshal] are
    taken as the fields of an environment ([World]).  A call of the program
    is then a pure function of that environment; besides its result every
    function reports the list of addresses it requested, in order, so that
    statements about "no further probe" or "no network access" can be
    made.  A request is a call of [Get]: what the library does inside a
    call, such as following a redirect, is not listed.  During one call the
    environment answers the same request the same way. *)

From Stdlib Require Import ZArith String Ascii List Lia Bool.
From stdpp Require Import base list strings gmap.

Local Open Scope string_scope.
Local Open Scope list_scope.

(** ** Go values *)

(** Go's [error] values.  The program builds two of its own with
    [fmt.Errorf]; every other error is handed over by a library call. *)
Inductive error : Type :=
| Errorf (msg : string)
| LibError (msg : string).

(** A Go [(value, error)] return.  Every error return of the program is
    [return nil, err] or [return "", err], so the value that goes with a
    non-nil error is always the zero value and is not kept. *)
Inductive result (A : Type) : Type :=
| Ok (a : A)
| Err (e : error).
Arguments Ok {A} a.
Arguments Err {A} e.

(** What a call of the recursive resolver can do besides returning: panic on
    an index out of range, or exceed the recursion budget of the model. *)
Inductive run (A : Type) : Type :=
| Returns (r : result A)
| Panics
| OutOfFuel.
Arguments Returns {A} r.
Arguments Panics {A}.
Arguments OutOfFuel {A}.

(** The addresses requested by a call, oldest first. *)
Definition trace : Type := list string.

(** ** Package [strings] *)

(** [strings.HasPrefix(s, prefix)] *)
Definition HasPrefix (s prefix : string) : bool := String.prefix prefix s.

(** [s[n:]] for [n <= len(s)] *)
Fixpoint string_skip (n : nat) (s : string) : string :=
  match n, s with
  | O, _ => s
  | S n', String _ s' => string_skip n' s'
  | S _, EmptyString => EmptyString
  end.

(** [strings.TrimPrefix(s, prefix)] *)
Definition TrimPrefix (s prefix : string) : string :=
  if HasPrefix s prefix then string_skip (String.length prefix) s else s.

Definition newline : ascii := "010"%char.

(** [strings.Split(s, "\n")]: the pieces between line feeds; one piece more
    than there are line feeds, so the empty string gives one empty piece. *)
Fixpoint Split_newline (s : string) : list string :=
  match s with
  | EmptyString => [EmptyString]
  | String c s' =>
      if Ascii.eqb c newline then EmptyString :: Split_newline s'
      else match Split_newline s' with
           | line :: lines => String c line :: lines
           | [] => [String c EmptyString]
           end
  end.

(** ** Data model *)

(** A [url] element of a sitemap. *)
Module SitemapURL.
Record t : Type := { Loc : string }.
End SitemapURL.

(** A [sitemap] element of a sitemap index. *)
Module SitemapSitemap.
Record t : Type := { Loc : string }.
End SitemapSitemap.

Record Sitemap : Type := {
  URLs : list SitemapURL.t;
  Sitemaps : list SitemapSitemap.t
}.

(** [url.URL], of which the program reads the [Host] field only. *)
Record URL : Type := { Host : string }.

(** [http.Response]: the status code and what [ioutil.ReadAll] makes of the
    body. *)
Record Response : Type := {
  StatusCode : Z;
  Body : result string
}.

Definition StatusOK : Z := 200.

(** The library calls of the program. *)
Class World : Type := {
  url_Parse : string -> result URL;
  client_Get : string -> result Response;   (* http.Client{Timeout: 3s}.Get *)
  http_Get : string -> result Response;     (* http.Get *)
  xml_Unmarshal : string -> result Sitemap
}.

(** ** Locator *)

(** Lines 40-48: the [for _, line := range lines] loop with its
    fall-through [return ""]. *)
Fixpoint scan_lines (lines : list string) : string :=
  match lines with
  | [] => ""
  | line :: rest =>
      if HasPrefix line "Sitemap:" then TrimPrefix line "Sitemap: "
      else scan_lines rest
  end.

Definition parseSitemapFromRobotsTxt (robotsTxt : string) : string :=
  scan_lines (Split_newline robotsTxt).

(** Lines 65-67 and 88-90: the default scheme is put in front of an input
    that starts with neither scheme. *)
Definition with_scheme (domain : string) : string :=
  if negb (HasPrefix domain "http://") && negb (HasPrefix domain "https://")
  then "http://" +:+ domain
  else domain.

Section Program.
Context `{W : World}.

Definition isValidDomain (domain : string) : bool :=
  if (String.length domain =? 0)%nat then false
  else
    match url_Parse (with_scheme domain) with
    | Err _ => false
    | Ok parsedURL => negb (String.eqb (Host parsedURL) "")
    end.

Definition extractDomain (domain : string) : string :=
  if (String.length domain =? 0)%nat then ""
  else
    match url_Parse (with_scheme domain) with
    | Err _ => ""
    | Ok parsedURL => Host parsedURL
    end.

Definition sitemapLocations : list string :=
  [ "/test.xml"; "/sitemap.xml"; "/sitemap1.xml"; "/sitemap.txt";
    "/sitemap_index.xml"; "/sitemap/"; "/sitemap"; "/sitemap-index.xml";
    "/sitemaps/"; "/sitemaps"; "/site-map"; "/sitemap-indexes/";
    "/post-sitemap.xml"; "/page-sitemap.xml"; "/category-sitemap.xml";
    "/tag-sitemap.xml"; "/pages-sitemap.xml"; "/blog-pages-sitemap.xml";
    "/member-profile-sitemap.xml"; "/dynamic-pages-sitemap.xml";
    "/other-pages-sitemap.xml"; "/sitemap.xml.gz"; "/sitemapindex.xml";
    "/sitemap_index.xml.gz"; "/sitemap/index.xml"; "/sitemap.xml";
    "/sitemap_map.html"; "/wp-sitemap.xml"; "/other-pages-sitemap.xml";
    "/category-sitemap.xml"; "/tag-sitemap.xml"; "/author-sitemap.xml";
    "/post-sitemap"; "/sitemaps-2-sitemap.xml"; "/page-sitemap" ].

(** [fmt.Sprintf("https://%s%s", domain, location)] *)
Definition candidate (domain location : string) : string :=
  "https://" +:+ domain +:+ location.

(** Lines 178-193: the probing loop.  [None] is the loop running to its end
    without a [return]. *)
Fixpoint probe (domain : string) (locations : list string)
  : option (result string) * trace :=
  match locations with
  | [] => (None, [])
  | location :: rest =>
      let url := candidate domain location in
      match client_Get url with
      | Err err => (Some (Err err), [url])
      | Ok resp =>
          if (StatusCode resp =? StatusOK)%Z then (Some (Ok url), [url])
          else let '(r, t) := probe domain rest in (r, url :: t)
      end
  end.

(** Lines 138-196: the candidates are tried after the robots file gave
    nothing, and the last [return] reports that none answered. *)
Definition probe_candidates (domain robotsURL : string) : result string * trace :=
  match probe domain sitemapLocations with
  | (Some r, t) => (r, robotsURL :: t)
  | (None, t) =>
      (Err (Errorf ("Couldn't find sitemap for " +:+ domain)), robotsURL :: t)
  end.

Definition getSitemapURLFromDomain (domain : string) : result string * trace :=
  if negb (isValidDomain domain)
  then (Err (Errorf ("Failed to validate " +:+ domain)), [])
  else
    let domain := extractDomain domain in
    let robotsURL := "https://" +:+ domain +:+ "/robots.txt" in
    match client_Get robotsURL with
    | Err err => (Err err, [robotsURL])
    | Ok resp =>
        if (StatusCode resp =? StatusOK)%Z then
          match Body resp with
          | Err err => (Err err, [robotsURL])
          | Ok robotsTxt =>
              let sitemapLoc := parseSitemapFromRobotsTxt robotsTxt in
              if negb (String.eqb sitemapLoc "") then (Ok sitemapLoc, [robotsURL])
              else probe_candidates domain robotsURL
          end
        else probe_candidates domain robotsURL
    end.

(** ** Resolver *)

(** [urls[i] = v]; [None] is the run-time panic of an index out of range. *)
Definition assign (urls : list string) (i : nat) (v : string)
  : option (list string) :=
  if (i <? length urls)%nat then Some (<[i := v]> urls) else None.

(** Lines 225-227: [for i, u := range sitemap.URLs { urls[i] = u.Loc }] *)
Fixpoint copy_locs (i : nat) (us : list SitemapURL.t) (urls : list string)
  : option (list string) :=
  match us with
  | [] => Some urls
  | u :: rest =>
      match assign urls i (SitemapURL.Loc u) with
      | Some urls' => copy_locs (S i) rest urls'
      | None => None
      end
  end.

(** [fmt.Sprintf("Sitemap index: %s", loc)] *)
Definition marker (loc : string) : string := "Sitemap index: " +:+ loc.

(** The marker written for the child [s]. *)
Definition child_marker (s : SitemapSitemap.t) : string :=
  marker (SitemapSitemap.Loc s).

(** Lines 239-246: the loop over the children of an index; [resolve] is the
    recursive call. *)
Fixpoint resolve_children (resolve : string -> run (list string) * trace)
    (i : nat) (children : list SitemapSitemap.t) (urls : list string)
  : run (list string) * trace :=
  match children with
  | [] => (Returns (Ok urls), [])
  | s :: rest =>
      match resolve (SitemapSitemap.Loc s) with
      | (Returns (Ok subUrls), t) =>
          match assign urls i (marker (SitemapSitemap.Loc s)) with
          | Some urls' =>
              let '(r, t') := resolve_children resolve (S i) rest (urls' ++ subUrls) in
              (r, t ++ t')
          | None => (Panics, t)
          end
      | (Returns (Err err), t) => (Returns (Err err), t)
      | (Panics, t) => (Panics, t)
      | (OutOfFuel, t) => (OutOfFuel, t)
      end
  end.

(** [make([]string, n)] *)
Definition make (n : nat) : list string := replicate n "".

(** The body of [parseSitemap] (lines 205-248), with [resolve] for its
    recursive call. *)
Definition parseSitemap_body (resolve : string -> run (list string) * trace)
    (url : string) : run (list string) * trace :=
  match http_Get url with
  | Err err => (Returns (Err err), [url])
  | Ok resp =>
      match Body resp with
      | Err err => (Returns (Err err), [url])
      | Ok body =>
          match xml_Unmarshal body with
          | Err err => (Returns (Err err), [url])
          | Ok sitemap =>
              if (0 <? length (URLs sitemap))%nat then
                match copy_locs 0 (URLs sitemap) (make (length (URLs sitemap))) with
                | Some urls => (Returns (Ok urls), [url])
                | None => (Panics, [url])
                end
              else
                match xml_Unmarshal body with
                | Err err => (Returns (Err err), [url])
                | Ok sitemapIndex =>
                    let '(r, t) :=
                      resolve_children resolve 0 (Sitemaps sitemapIndex)
                        (make (length (Sitemaps sitemapIndex))) in
                    (r, url :: t)
                end
          end
      end
  end.

(** [parseSitemap] calls itself without bound (an index may name itself);
    [fuel] bounds the depth of the calls. *)
Fixpoint parseSitemap (fuel : nat) (url : string) : run (list string) * trace :=
  match fuel with
  | O => (OutOfFuel, [])
  | S fuel' => parseSitemap_body (parseSitemap fuel') url
  end.

(** The requests that resolving the child [s] issues. *)
Definition requests (fuel : nat) (s : SitemapSitemap.t) : trace :=
  snd (parseSitemap fuel (SitemapSitemap.Loc s)).

(** The address [url] answers with a body that decodes to [doc]. *)
Definition serves (url : string) (doc : Sitemap) : Prop :=
  exists resp body,
    http_Get url = Ok resp /\ Body resp = Ok body /\ xml_Unmarshal body = Ok doc.

(** The children [children] resolve, with [fuel] calls in depth, to the
    lists [subs]. *)
Definition resolve_to (fuel : nat) (children : list SitemapSitemap.t)
    (subs : list (list string)) : Prop :=
  Forall2 (fun s sub =>
             fst (parseSitemap fuel (SitemapSitemap.Loc s)) = Returns (Ok sub))
          children subs.

End Program.

(** ** Request handler *)

(** [err.Error()] *)
Definition Error (e : error) : string :=
  match e with
  | Errorf msg => msg
  | LibError msg => msg
  end.

(** Of a request the handler reads the method and the body. *)
Record Request : Type := {
  Method : string;
  RequestBody : string
}.

(** What the handler wrote to its [http.ResponseWriter]: the status, the
    [Content-Type] header and the body. *)
Record Reply : Type := {
  Status : Z;
  ContentType : string;
  Written : string
}.

(** How a call of the handler ends. *)
Inductive served : Type :=
| Replies (reply : Reply)
| HandlerPanics
| HandlerOutOfFuel.

(** A call of the handler: its end, the addresses it requested and the
    lines it printed on the standard output. *)
Record Handled : Type := {
  outcome : served;
  requested : trace;
  printed : list string
}.

(** The library calls of the handler: [json.NewDecoder(r.Body).Decode] into
    a [map[string]string], [url.ParseRequestURI], and [json.Marshal] of the
    map with the keys [type] and [urls] ([None] is the nil slice). *)
Class Glue : Type := {
  json_Decode : string -> result (gmap string string);
  url_ParseRequestURI : string -> result URL;
  json_Marshal : string -> option (list string) -> result string
}.

(** [http.Error(w, msg, code)] *)
Definition http_Error (msg : string) (code : Z) : Reply :=
  {| Status := code;
     ContentType := "text/plain; charset=utf-8";
     Written := msg +:+ String newline "" |}.

Section Handler.
Context `{W : World} `{G : Glue}.

(** Lines 318-340: the response is marshalled and written with status 200. *)
Definition respond (requestType : string) (urls : option (list string)) : Reply :=
  match json_Marshal requestType urls with
  | Err _ => http_Error "Failed to create JSON response" 500
  | Ok jsonResponse =>
      {| Status := 200; ContentType := "application/json"; Written := jsonResponse |}
  end.

(** Lines 311-340: what follows the call of [parseSitemap]. *)
Definition conclude (requestType : string) (resolved : run (list string)) : served :=
  match resolved with
  | Returns (Err _) => Replies (http_Error "Failed to parse sitemap" 500)
  | Returns (Ok urls) => Replies (respond requestType (Some urls))
  | Panics => HandlerPanics
  | OutOfFuel => HandlerOutOfFuel
  end.

Definition handleRequest (fuel : nat) (r : Request) (requestType : string) : Handled :=
  if negb (String.eqb (Method r) "POST") then
    {| outcome := Replies (http_Error "Method not allowed" 405);
       requested := []; printed := [] |}
  else
    match json_Decode (RequestBody r) with
    | Err _ =>
        {| outcome := Replies (http_Error "Invalid JSON payload" 400);
           requested := []; printed := [] |}
    | Ok data =>
        match data !! requestType with
        | None =>
            {| outcome :=
                 Replies (http_Error
                            ("Missing '" +:+ requestType +:+ "' field in JSON payload")
                            400);
               requested := []; printed := [] |}
        | Some fieldValue =>
            let line := requestType +:+ " " +:+ fieldValue in
            if String.eqb requestType "domain" then
              match getSitemapURLFromDomain fieldValue with
              | (Err err, t) =>
                  {| outcome := Replies (http_Error (Error err) 500);
                     requested := t; printed := [line] |}
              | (Ok sitemapURL, t) =>
                  let '(resolved, t') := parseSitemap fuel sitemapURL in
                  {| outcome := conclude requestType resolved;
                     requested := t ++ t'; printed := [line] |}
              end
            else if String.eqb requestType "sitemap" then
              match url_ParseRequestURI fieldValue with
              | Err _ =>
                  {| outcome := Replies (http_Error "Invalid URL" 400);
                     requested := []; printed := [line] |}
              | Ok _ =>
                  let '(resolved, t) := parseSitemap fuel fieldValue in
                  {| outcome := conclude requestType resolved;
                     requested := t; printed := [line] |}
              end
            else
              {| outcome := Replies (respond requestType None);
                 requested := []; printed := [line] |}
        end
    end.

Definition handleDomainEndpoint (fuel : nat) (r : Request) : Handled :=
  handleRequest fuel r "domain".

Definition handleSitemapEndpoint (fuel : nat) (r : Request) : Handled :=
  handleRequest fuel r "sitemap".

End Handler.

(** ** A sample environment

    The answers of the libraries on the inputs the worked examples below
    use: three hosts, [example.com] (a robots file without a directive, the
    third candidate answering), [example.org] (a directive with a space) and
    [example.net] (a directive without one). *)

Definition answer {A : Type} (table : list (string * A)) (otherwise : A)
    (key : string) : A :=
  match find (fun entry => String.eqb (fst entry) key) table with
  | Some entry => snd entry
  | None => otherwise
  end.

Definition lines_of (lines : list string) : string :=
  fold_right (fun line rest => line +:+ String newline rest) "" lines.

Definition sample_hosts : list (string * result URL) :=
  [ ("http://example.com", Ok {| Host := "example.com" |});
    ("https://example.com", Ok {| Host := "example.com" |});
    ("http://example.org", Ok {| Host := "example.org" |});
    ("http://example.net", Ok {| Host := "example.net" |});
    ("http://", Ok {| Host := "" |});
    ("http://not a domain", Err (LibError "invalid character in host name")) ].

Definition not_found : Response :=
  {| StatusCode := 404; Body := Ok "404 page not found" |}.

Definition sample_probes : list (string * result Response) :=
  [ ("https://example.com/robots.txt",
     Ok {| StatusCode := 200;
           Body := Ok (lines_of ["User-agent: *"; "Disallow: /private"]) |});
    ("https://example.com/test.xml", Ok not_found);
    ("https://example.com/sitemap.xml", Ok not_found);
    ("https://example.com/sitemap1.xml",
     Ok {| StatusCode := 200; Body := Ok "<sitemapindex/>" |});
    ("https://example.org/robots.txt",
     Ok {| StatusCode := 200;
           Body := Ok (lines_of ["User-agent: *";
                                 "Sitemap: https://example.org/s1.xml"]) |});
    ("https://example.net/robots.txt",
     Ok {| StatusCode := 200;
           Body := Ok (lines_of ["User-agent: *";
                                 "Sitemap:https://example.net/s1.xml"]) |}) ].

Definition leaf_abc : string :=
  "<urlset><url><loc>/a</loc></url><url><loc>/b</loc></url><url><loc>/c</loc></url></urlset>".
Definition leaf_x : string := "<urlset><url><loc>/x</loc></url></urlset>".
Definition leaf_y : string := "<urlset><url><loc>/y</loc></url></urlset>".
Definition mixed : string :=
  "<urlset><sitemap><loc>https://example.com/a.xml</loc></sitemap><url><loc>/m</loc></url></urlset>".
Definition index_ab : string :=
  "<sitemapindex><sitemap><loc>https://example.com/a.xml</loc></sitemap><sitemap><loc>https://example.com/b.xml</loc></sitemap></sitemapindex>".
Definition index_broken : string :=
  "<sitemapindex><sitemap><loc>https://example.com/a.xml</loc></sitemap><sitemap><loc>https://example.com/broken.xml</loc></sitemap><sitemap><loc>https://example.com/b.xml</loc></sitemap></sitemapindex>".
Definition index_empty : string := "<sitemapindex></sitemapindex>".
Definition truncated : string := "<urlset><url><loc>/a</loc>".

Definition page (body : string) : result Response :=
  Ok {| StatusCode := 200; Body := Ok body |}.

Definition sample_pages : list (string * result Response) :=
  [ ("https://example.com/abc.xml", page leaf_abc);
    ("https://example.com/a.xml", page leaf_x);
    ("https://example.com/b.xml", page leaf_y);
    ("https://example.com/mixed.xml", page mixed);
    ("https://example.com/index.xml", page index_ab);
    ("https://example.com/partial.xml", page index_broken);
    ("https://example.com/empty.xml", page index_empty);
    ("https://example.com/broken.xml", page truncated) ].

Definition url_entry (loc : string) : SitemapURL.t := {| SitemapURL.Loc := loc |}.
Definition sitemap_entry (loc : string) : SitemapSitemap.t :=
  {| SitemapSitemap.Loc := loc |}.

Definition sample_documents : list (string * result Sitemap) :=
  [ (leaf_abc, Ok {| URLs := map url_entry ["/a"; "/b"; "/c"]; Sitemaps := [] |});
    (leaf_x, Ok {| URLs := [url_entry "/x"]; Sitemaps := [] |});
    (leaf_y, Ok {| URLs := [url_entry "/y"]; Sitemaps := [] |});
    (mixed, Ok {| URLs := [url_entry "/m"];
                  Sitemaps := [sitemap_entry "https://example.com/a.xml"] |});
    (index_ab,
     Ok {| URLs := [];
           Sitemaps := map sitemap_entry
             ["https://example.com/a.xml"; "https://example.com/b.xml"] |});
    (index_broken,
     Ok {| URLs := [];
           Sitemaps := map sitemap_entry
             ["https://example.com/a.xml"; "https://example.com/broken.xml";
              "https://example.com/b.xml"] |});
    (index_empty, Ok {| URLs := []; Sitemaps := [] |});
    (truncated, Err (LibError "XML syntax error on line 1: unexpected EOF")) ].

#[local] Instance sample : World := {|
  url_Parse := answer sample_hosts (Err (LibError "parse: not in the sample"));
  client_Get := answer sample_probes (Err (LibError "dial tcp: no such host"));
  http_Get := answer sample_pages (Err (LibError "dial tcp: no such host"));
  xml_Unmarshal := answer sample_documents (Err (LibError "EOF"))
|}.

(** The sample environment with two more pages: the sitemap that the
    robots file of [example.org] declares, and an index that lists itself
    after a leaf. *)
Definition index_loop : string :=
  "<sitemapindex><sitemap><loc>https://example.com/a.xml</loc></sitemap><sitemap><loc>https://example.com/loop.xml</loc></sitemap></sitemapindex>".

Definition linked_site : World := {|
  url_Parse := url_Parse;
  client_Get := client_Get;
  http_Get :=
    answer (("https://example.org/s1.xml", page leaf_abc)
              :: ("https://example.com/loop.xml", page index_loop)
              :: sample_pages)
           (Err (LibError "dial tcp: no such host"));
  xml_Unmarshal :=
    answer ((index_loop,
             Ok {| URLs := [];
                   Sitemaps := map sitemap_entry
                     ["https://example.com/a.xml"; "https://example.com/loop.xml"] |})
              :: sample_documents)
           (Err (LibError "EOF"))
|}.

(** An environment in which every page is answered with status 404 and the
    body it has in [V]. *)
Definition answered_404 (V : World) : World := {|
  url_Parse := @url_Parse V;
  client_Get := @client_Get V;
  http_Get := fun url =>
    match @http_Get V url with
    | Ok resp => Ok {| StatusCode := 404; Body := Body resp |}
    | Err err => Err err
    end;
  xml_Unmarshal := @xml_Unmarshal V
|}.

(** A host that answers every probe with status 404. *)
Definition bare_site : World := {|
  url_Parse := url_Parse;
  client_Get := fun _ => Ok not_found;
  http_Get := http_Get;
  xml_Unmarshal := xml_Unmarshal
|}.

(** Request bodies and the answers of the JSON and URL libraries on them. *)
Definition quoted (s : string) : string :=
  String "034"%char (s +:+ String "034"%char "").

Definition json_object (key value : string) : string :=
  "{" +:+ quoted key +:+ ":" +:+ quoted value +:+ "}".

Definition json_array (items : list string) : string :=
  "[" +:+ String.concat "," (map quoted items) +:+ "]".

Definition sample_payloads : list (string * result (gmap string string)) :=
  [ (json_object "domain" "example.com",
     Ok ({[ "domain" := "example.com" ]} : gmap string string));
    (json_object "domain" "example.org",
     Ok ({[ "domain" := "example.org" ]} : gmap string string));
    (json_object "domain" "not a domain",
     Ok ({[ "domain" := "not a domain" ]} : gmap string string));
    (json_object "sitemap" "https://example.com/index.xml",
     Ok ({[ "sitemap" := "https://example.com/index.xml" ]} : gmap string string));
    (json_object "sitemap" "https://example.com/broken.xml",
     Ok ({[ "sitemap" := "https://example.com/broken.xml" ]} : gmap string string));
    (json_object "sitemap" "index.xml",
     Ok ({[ "sitemap" := "index.xml" ]} : gmap string string)) ].

Definition sample_request_uris : list (string * result URL) :=
  [ ("https://example.com/index.xml", Ok {| Host := "example.com" |});
    ("https://example.com/broken.xml", Ok {| Host := "example.com" |});
    ("index.xml", Err (LibError "invalid URI for request")) ].

#[local] Instance sample_glue : Glue := {|
  json_Decode := answer sample_payloads (Err (LibError "unexpected end of JSON input"));
  url_ParseRequestURI := answer sample_request_uris (Err (LibError "empty url"));
  json_Marshal := fun requestType urls =>
    Ok ("{" +:+ quoted "type" +:+ ":" +:+ quoted requestType +:+ ","
            +:+ quoted "urls" +:+ ":"
            +:+ match urls with Some items => json_array items | None => "null" end
            +:+ "}")
|}.

Definition post (body : string) : Request :=
  {| Method := "POST"; RequestBody := body |}.

(** ** Notions used in the statements *)

(** [s] holds a line feed. *)
Fixpoint has_newline (s : string) : bool :=
  match s with
  | EmptyString => false
  | String c s' => Ascii.eqb c newline || has_newline s'
  end.

Section Notions.
Context `{W : World}.

(** The address [url] cannot be turned into a document, with the error
    [err]: the request fails, or reading its body, or decoding it. *)
Definition fails_at (url : string) (err : error) : Prop :=
  http_Get url = Err err
  \/ exists resp,
       http_Get url = Ok resp
       /\ (Body resp = Err err
           \/ exists body, Body resp = Ok body /\ xml_Unmarshal body = Err err).

End Notions.

(** Two environments that answer every page request alike, the status
    apart, and decode alike. *)
Definition same_pages (V1 V2 : World) : Prop :=
  (forall url,
      match @http_Get V1 url, @http_Get V2 url with
      | Ok resp1, Ok resp2 => Body resp1 = Body resp2
      | Err err1, Err err2 => err1 = err2
      | _, _ => False
      end)
  /\ (forall body, @xml_Unmarshal V1 body = @xml_Unmarshal V2 body).

(** Two facts of [url.Parse] (package [net/url], not part of the
    repository): it finds the same host behind "https://" as behind
    "http://", failing for the one when it fails for the other, and it
    finds no host in a scheme that nothing follows. *)
Section Parser.
Context `{W : World}.

(** The host that [url.Parse] finds, empty when it fails. *)
Definition parsed_host (rawURL : string) : string :=
  match url_Parse rawURL with
  | Ok parsedURL => Host parsedURL
  | Err _ => ""
  end.

Definition parser_reads_host_after_scheme : Prop :=
  (forall rest, parsed_host ("https://" +:+ rest) = parsed_host ("http://" +:+ rest))
  /\ parsed_host "http://" = "".

End Parser.

(** An environment whose parser takes for the host what stands between the
    scheme and the next slash; its probes are those of the sample. *)
Fixpoint up_to_slash (s : string) : string :=
  match s with
  | EmptyString => EmptyString
  | String c s' => if Ascii.eqb c "/"%char then EmptyString else String c (up_to_slash s')
  end.

Definition host_after_scheme (rawURL : string) : result URL :=
  if HasPrefix rawURL "http://"
  then Ok {| Host := up_to_slash (string_skip 7 rawURL) |}
  else if HasPrefix rawURL "https://"
  then Ok {| Host := up_to_slash (string_skip 8 rawURL) |}
  else Err (LibError "missing protocol scheme").

Definition parsing_site : World := {|
  url_Parse := host_after_scheme;
  client_Get := client_Get;
  http_Get := http_Get;
  xml_Unmarshal := xml_Unmarshal
|}.

(** An environment with a page that is well-formed XML but no sitemap: the
    decoder, which accepts any root element and skips the elements it does
    not know, gives a document without entries for it. *)
Definition not_found_page : string := "<html><body>Not Found</body></html>".

Definition html_site : World := {|
  url_Parse := url_Parse;
  client_Get := client_Get;
  http_Get :=
    answer (("https://example.com/missing.xml",
             Ok {| StatusCode := 404; Body := Ok not_found_page |})
              :: sample_pages)
           (Err (LibError "dial tcp: no such host"));
  xml_Unmarshal :=
    answer ((not_found_page, Ok {| URLs := []; Sitemaps := [] |})
              :: sample_documents)
           (Err (LibError "EOF"))
|}.

(** * Properties *)

(** ** Slices *)

(** Bring nested appends into right-nested form. *)
Ltac flatten_apps := repeat (progress cbn [app] || rewrite <- app_assoc).

Lemma assign_at_end_of_prefix (pre : list string) (x v : string) (rest : list string) :
  assign (pre ++ x :: rest) (length pre) v = Some (pre ++ v :: rest).
Proof.
  unfold assign.
  assert (Hlt : (length pre <? length (pre ++ x :: rest))%nat = true).
  { apply Nat.ltb_lt. rewrite length_app. simpl. lia. }
  rewrite Hlt. f_equal.
  rewrite insert_app_r_alt by lia.
  rewrite Nat.sub_diag. reflexivity.
Qed.

Lemma make_succ (n : nat) : make (S n) = "" :: make n.
Proof. reflexivity. Qed.

Lemma make_app (n m : nat) : make (n + m) = make n ++ make m.
Proof. unfold make. apply replicate_add. Qed.

Lemma copy_locs_fills (us : list SitemapURL.t) :
  forall pre : list string,
    copy_locs (length pre) us (pre ++ make (length us))
    = Some (pre ++ map SitemapURL.Loc us).
Proof.
  induction us as [|u us IH]; intros pre.
  - reflexivity.
  - cbn [copy_locs length map]. rewrite make_succ, assign_at_end_of_prefix.
    specialize (IH (pre ++ [SitemapURL.Loc u])).
    rewrite length_app, Nat.add_1_r in IH. cbn [length] in IH.
    rewrite <- !app_assoc in IH. exact IH.
Qed.

Section Resolver.
Context `{W : World}.

(** The loop invariant of lines 239-246: after the children [done] the
    slice holds their markers in its first slots, the still empty slots of
    the children to come, and then everything appended so far. *)
Lemma resolve_children_prefix (resolve : string -> run (list string) * trace)
    (done : list SitemapSitemap.t) :
  forall (todo : list SitemapSitemap.t) (subs : list (list string))
         (pre tail : list string),
    Forall2 (fun s sub => fst (resolve (SitemapSitemap.Loc s)) = Returns (Ok sub))
            done subs ->
    resolve_children resolve (length pre) (done ++ todo)
      (pre ++ make (length done) ++ tail)
    = let '(r, t) :=
        resolve_children resolve (length pre + length done) todo
          (pre ++ map child_marker done ++ tail ++ concat subs) in
      (r, concat (map (fun s => snd (resolve (SitemapSitemap.Loc s))) done) ++ t).
Proof.
  induction done as [|s done IH]; intros todo subs pre tail Hsubs.
  - inversion Hsubs; subst. cbn [length map concat app make replicate].
    rewrite Nat.add_0_r, app_nil_r.
    destruct (resolve_children resolve (length pre) todo (pre ++ tail)); reflexivity.
  - inversion Hsubs as [|s' sub done' subs' Hs Hrest]; subst.
    cbn [app resolve_children length].
    destruct (resolve (SitemapSitemap.Loc s)) as [r t] eqn:Hr.
    cbn [fst] in Hs. subst r.
    rewrite make_succ. cbn [app]. rewrite assign_at_end_of_prefix.
    specialize (IH todo subs' (pre ++ [marker (SitemapSitemap.Loc s)]) (tail ++ sub) Hrest).
    rewrite length_app in IH. cbn [length] in IH.
    replace ((pre ++ marker (SitemapSitemap.Loc s) :: make (length done) ++ tail) ++ sub)
      with ((pre ++ [marker (SitemapSitemap.Loc s)]) ++ make (length done) ++ tail ++ sub)
      by (flatten_apps; reflexivity).
    replace (S (length pre)) with (length pre + 1)%nat by lia.
    rewrite IH.
    replace (length pre + 1 + length done)%nat with (length pre + S (length done))%nat by lia.
    cbn [map concat snd]. rewrite Hr. cbn [snd].
    replace ((pre ++ [marker (SitemapSitemap.Loc s)]) ++ map child_marker done ++ (tail ++ sub) ++ concat subs')
      with (pre ++ (child_marker s :: map child_marker done) ++ tail ++ sub ++ concat subs')
      by (unfold child_marker; flatten_apps; reflexivity).
    clear IH.
    destruct (resolve_children resolve _ todo _) as [r' t'].
    rewrite <- app_assoc. reflexivity.
Qed.

End Resolver.

Section ResolverFacts.
Context `{W : World}.

Lemma parseSitemap_index (fuel : nat) (url : string) (doc : Sitemap) :
  serves url doc -> URLs doc = [] ->
  parseSitemap (S fuel) url
  = let '(r, t) :=
      resolve_children (parseSitemap fuel) 0 (Sitemaps doc)
        (make (length (Sitemaps doc))) in
    (r, url :: t).
Proof.
  intros (resp & body & Hget & Hbody & Hdoc) Hnil.
  cbn [parseSitemap]. unfold parseSitemap_body.
  rewrite Hget, Hbody, Hdoc, Hnil. reflexivity.
Qed.

(** More fuel does not change a result that was reached. *)
Lemma resolve_children_agree (f g : string -> run (list string) * trace)
    (children : list SitemapSitemap.t) :
  (forall u, fst (f u) <> OutOfFuel -> g u = f u) ->
  forall i urls,
    fst (resolve_children f i children urls) <> OutOfFuel ->
    resolve_children g i children urls = resolve_children f i children urls.
Proof.
  intros Hfg. induction children as [|s rest IH]; intros i urls Hres.
  - reflexivity.
  - cbn [resolve_children] in *.
    destruct (f (SitemapSitemap.Loc s)) as [r t] eqn:Hf.
    assert (Hg : fst (f (SitemapSitemap.Loc s)) <> OutOfFuel
                 -> g (SitemapSitemap.Loc s) = (r, t))
      by (intros H; rewrite (Hfg _ H); exact Hf).
    rewrite Hf in Hg. cbn [fst] in Hg.
    destruct r as [[subUrls|err]| |].
    + rewrite Hg by discriminate.
      destruct (assign urls i (marker (SitemapSitemap.Loc s))) as [urls'|]; [|reflexivity].
      specialize (IH (S i) (urls' ++ subUrls)).
      destruct (resolve_children f (S i) rest (urls' ++ subUrls)) as [r' t'] eqn:Hrest.
      cbn [fst] in *. rewrite (IH Hres). reflexivity.
    + rewrite Hg by discriminate. reflexivity.
    + rewrite Hg by discriminate. reflexivity.
    + cbn [fst] in Hres. congruence.
Qed.

Lemma parseSitemap_fuel_succ (fuel : nat) :
  forall url, fst (parseSitemap fuel url) <> OutOfFuel ->
              parseSitemap (S fuel) url = parseSitemap fuel url.
Proof.
  induction fuel as [|fuel IH]; intros url Hres.
  - cbn in Hres. congruence.
  - change (parseSitemap (S (S fuel)) url)
      with (parseSitemap_body (parseSitemap (S fuel)) url).
    change (parseSitemap (S fuel) url)
      with (parseSitemap_body (parseSitemap fuel) url) in Hres |- *.
    unfold parseSitemap_body in Hres |- *.
    destruct (http_Get url) as [resp|]; [|reflexivity].
    destruct (Body resp) as [body|]; [|reflexivity].
    destruct (xml_Unmarshal body) as [doc|]; [|reflexivity].
    destruct (0 <? length (URLs doc))%nat; [reflexivity|].
    pose proof (resolve_children_agree (parseSitemap fuel) (parseSitemap (S fuel))
                  (Sitemaps doc) IH 0 (make (length (Sitemaps doc)))) as Hagree.
    destruct (resolve_children (parseSitemap fuel) 0 (Sitemaps doc) _) as [r t].
    cbn [fst] in *. rewrite (Hagree Hres). reflexivity.
Qed.

Lemma parseSitemap_fuel_mono (fuel extra : nat) (url : string) :
  fst (parseSitemap fuel url) <> OutOfFuel ->
  parseSitemap (fuel + extra) url = parseSitemap fuel url.
Proof.
  intros Hres. induction extra as [|extra IH].
  - rewrite Nat.add_0_r. reflexivity.
  - rewrite Nat.add_succ_r, parseSitemap_fuel_succ by (rewrite IH; exact Hres).
    exact IH.
Qed.

(** The index written by the loops is always inside the slice: no call
    panics. *)
Lemma resolve_children_no_panic (resolve : string -> run (list string) * trace)
    (children : list SitemapSitemap.t) :
  (forall u, fst (resolve u) <> Panics) ->
  forall i urls,
    (i + length children <= length urls)%nat ->
    fst (resolve_children resolve i children urls) <> Panics.
Proof.
  intros Hresolve. induction children as [|s rest IH]; intros i urls Hroom.
  - discriminate.
  - cbn [resolve_children length] in *.
    pose proof (Hresolve (SitemapSitemap.Loc s)) as Hs.
    destruct (resolve (SitemapSitemap.Loc s)) as [[[subUrls|err]| |] t];
      cbn [fst] in *; try discriminate; try congruence.
    unfold assign.
    assert (Hlt : (i <? length urls)%nat = true) by (apply Nat.ltb_lt; lia).
    rewrite Hlt.
    specialize (IH (S i) (<[i := marker (SitemapSitemap.Loc s)]> urls ++ subUrls)).
    destruct (resolve_children resolve (S i) rest _) as [r t']. cbn [fst] in *.
    apply IH. rewrite length_app, length_insert. lia.
Qed.

Lemma parseSitemap_never_panics (fuel : nat) :
  forall url, fst (parseSitemap fuel url) <> Panics.
Proof.
  induction fuel as [|fuel IH]; intros url; [discriminate|].
  change (parseSitemap (S fuel) url)
    with (parseSitemap_body (parseSitemap fuel) url).
  unfold parseSitemap_body.
  destruct (http_Get url) as [resp|]; [|discriminate].
  destruct (Body resp) as [body|]; [|discriminate].
  destruct (xml_Unmarshal body) as [doc|]; [|discriminate].
  destruct (0 <? length (URLs doc))%nat.
  - pose proof (copy_locs_fills (URLs doc) []) as Hcopy.
    cbn [length app] in Hcopy. rewrite Hcopy. discriminate.
  - pose proof (resolve_children_no_panic (parseSitemap fuel) (Sitemaps doc) IH
                  0 (make (length (Sitemaps doc)))) as Hloop.
    destruct (resolve_children (parseSitemap fuel) 0 (Sitemaps doc) _) as [r t].
    cbn [fst] in *. apply Hloop. unfold make. rewrite length_replicate. lia.
Qed.

(** A call that returns an error has requested something. *)
Lemma resolve_children_error_requests (resolve : string -> run (list string) * trace)
    (children : list SitemapSitemap.t) :
  (forall u err, resolve u <> (Returns (Err err), [])) ->
  forall i urls err, resolve_children resolve i children urls <> (Returns (Err err), []).
Proof.
  intros Hresolve. induction children as [|s rest IH]; intros i urls err Hloop.
  - discriminate.
  - cbn [resolve_children] in Hloop.
    destruct (resolve (SitemapSitemap.Loc s)) as [[[subUrls|err0]| |] t] eqn:Hs;
      try discriminate.
    + destruct (assign urls i (marker (SitemapSitemap.Loc s))) as [urls'|];
        [|discriminate].
      destruct (resolve_children resolve (S i) rest (urls' ++ subUrls)) as [r t'] eqn:Hrest.
      injection Hloop as -> Ht. apply app_eq_nil in Ht as [_ ->].
      exact (IH _ _ _ Hrest).
    + injection Hloop as -> ->. exact (Hresolve _ _ Hs).
Qed.

Lemma parseSitemap_error_requests (fuel : nat) (url : string) (err : error) :
  parseSitemap fuel url <> (Returns (Err err), []).
Proof.
  destruct fuel as [|fuel]; [discriminate|].
  change (parseSitemap (S fuel) url)
    with (parseSitemap_body (parseSitemap fuel) url).
  unfold parseSitemap_body.
  destruct (http_Get url) as [resp|]; [|discriminate].
  destruct (Body resp) as [body|]; [|discriminate].
  destruct (xml_Unmarshal body) as [doc|]; [|discriminate].
  destruct (0 <? length (URLs doc))%nat.
  - destruct (copy_locs 0 (URLs doc) (make (length (URLs doc)))); discriminate.
  - destruct (resolve_children (parseSitemap fuel) 0 (Sitemaps doc) _); discriminate.
Qed.

End ResolverFacts.

(** ** The resolver *)

Section ResolverClaims.
Context `{W : World}.

Lemma index_result (fuel : nat) (url : string) (doc : Sitemap)
    (subs : list (list string)) :
  serves url doc -> URLs doc = [] -> resolve_to fuel (Sitemaps doc) subs ->
  parseSitemap (S fuel) url
  = (Returns (Ok (map child_marker (Sitemaps doc) ++ concat subs)),
     url :: concat (map (requests fuel) (Sitemaps doc))).
Proof.
  intros Hdoc Hnil Hsubs.
  rewrite (parseSitemap_index fuel url doc Hdoc Hnil).
  pose proof (resolve_children_prefix (parseSitemap fuel) (Sitemaps doc)
                [] subs [] [] Hsubs) as Hloop.
  cbn [length app Nat.add resolve_children] in Hloop.
  rewrite !app_nil_r in Hloop. rewrite Hloop. reflexivity.
Qed.

(** C1, as the code has it: for an index sitemap (no leaf URLs) whose
    children all resolve, [parseSitemap] returns the markers of all the
    children first, one per child in document order, and after them the
    children's resolved lists, concatenated in document order. *)
Theorem C1_index_markers_then_children (fuel : nat) (url : string)
    (doc : Sitemap) (subs : list (list string)) :
  serves url doc -> URLs doc = [] -> resolve_to fuel (Sitemaps doc) subs ->
  fst (parseSitemap (S fuel) url)
  = Returns (Ok (map child_marker (Sitemaps doc) ++ concat subs)).
Proof.
  intros Hdoc Hnil Hsubs.
  rewrite (index_result fuel url doc subs Hdoc Hnil Hsubs). reflexivity.
Qed.

(** C2: a document with a non-empty list of [url] entries is answered with
    the [loc] strings of these entries, in document order; nothing else is
    requested, whatever [sitemap] entries the document has besides. *)
Theorem C2_leaf_returned_verbatim (fuel : nat) (url : string) (doc : Sitemap) :
  serves url doc -> URLs doc <> [] ->
  parseSitemap (S fuel) url
  = (Returns (Ok (map SitemapURL.Loc (URLs doc))), [url]).
Proof.
  intros (resp & body & Hget & Hbody & Hdoc) Hne.
  cbn [parseSitemap]. unfold parseSitemap_body. rewrite Hget, Hbody, Hdoc.
  destruct (URLs doc) as [|u us] eqn:Hus; [congruence|].
  cbn [length Nat.ltb Nat.leb].
  pose proof (copy_locs_fills (u :: us) []) as Hcopy.
  cbn [length app] in Hcopy. rewrite Hcopy. reflexivity.
Qed.

(** C7, as the code has it: for a body that was fetched and read, the call
    fails on the document itself, with the decoder's error and nothing else
    requested, exactly when the decoder rejects the body; it does not
    panic.  A body that the decoder accepts is not examined further: one
    without [url] and [sitemap] entries, such as well-formed XML of another
    kind, gives the empty list and no error. *)
Theorem C7_fails_exactly_when_decoder_rejects (fuel : nat) (url : string)
    (resp : Response) (body : string) (err : error) :
  http_Get url = Ok resp -> Body resp = Ok body ->
  (parseSitemap (S fuel) url = (Returns (Err err), [url])
   <-> xml_Unmarshal body = Err err)
  /\ fst (parseSitemap (S fuel) url) <> Panics
  /\ (forall doc,
        xml_Unmarshal body = Ok doc -> URLs doc = [] -> Sitemaps doc = [] ->
        parseSitemap (S fuel) url = (Returns (Ok []), [url])).
Proof.
  intros Hget Hbody.
  split; [|split; [apply parseSitemap_never_panics|]].
  - split.
    + intros Hres.
      destruct (xml_Unmarshal body) as [doc|err0] eqn:Hxml.
      * exfalso.
        assert (Hdoc : serves url doc) by (exists resp, body; auto).
        destruct (URLs doc) as [|u us] eqn:Hurls.
        -- rewrite (parseSitemap_index fuel url doc Hdoc Hurls) in Hres.
           destruct (resolve_children (parseSitemap fuel) 0 (Sitemaps doc)
                       (make (length (Sitemaps doc)))) as [r t] eqn:Hloop.
           injection Hres as -> ->.
           exact (resolve_children_error_requests (parseSitemap fuel) (Sitemaps doc)
                    (parseSitemap_error_requests fuel) _ _ _ Hloop).
        -- change (parseSitemap (S fuel) url)
             with (parseSitemap_body (parseSitemap fuel) url) in Hres.
           unfold parseSitemap_body in Hres.
           rewrite Hget, Hbody, Hxml, Hurls in Hres. cbn [length Nat.ltb Nat.leb] in Hres.
           destruct (copy_locs 0 (u :: us) (make (S (length us)))); discriminate.
      * change (parseSitemap (S fuel) url)
          with (parseSitemap_body (parseSitemap fuel) url) in Hres.
        unfold parseSitemap_body in Hres. rewrite Hget, Hbody, Hxml in Hres.
        congruence.
    + intros Hxml.
      change (parseSitemap (S fuel) url)
        with (parseSitemap_body (parseSitemap fuel) url).
      unfold parseSitemap_body. rewrite Hget, Hbody, Hxml. reflexivity.
  - intros doc Hxml Hnil Hnone.
    assert (Hdoc : serves url doc) by (exists resp, body; auto).
    rewrite (parseSitemap_index fuel url doc Hdoc Hnil), Hnone. reflexivity.
Qed.

(** C8: a document with neither [url] nor [sitemap] entries resolves to the
    empty list, without an error. *)
Theorem C8_empty_index_resolves_to_nil (fuel : nat) (url : string) (doc : Sitemap) :
  serves url doc -> URLs doc = [] -> Sitemaps doc = [] ->
  parseSitemap (S fuel) url = (Returns (Ok []), [url]).
Proof.
  intros Hdoc Hnil Hnone.
  rewrite (parseSitemap_index fuel url doc Hdoc Hnil), Hnone. reflexivity.
Qed.

(** C9: when the children before [s] resolve and [s] fails with [err], the
    call returns [err] and no list; it requested the index, what the
    earlier children requested and what [s] requested, and nothing for the
    children after [s]. *)
Theorem C9_child_failure_aborts (fuel : nat) (url : string) (doc : Sitemap)
    (before after : list SitemapSitemap.t) (s : SitemapSitemap.t)
    (subs : list (list string)) (err : error) (t : trace) :
  serves url doc -> URLs doc = [] ->
  Sitemaps doc = before ++ s :: after ->
  resolve_to fuel before subs ->
  parseSitemap fuel (SitemapSitemap.Loc s) = (Returns (Err err), t) ->
  parseSitemap (S fuel) url
  = (Returns (Err err), url :: concat (map (requests fuel) before) ++ t).
Proof.
  intros Hdoc Hnil Hsplit Hsubs Hfail.
  rewrite (parseSitemap_index fuel url doc Hdoc Hnil), Hsplit.
  rewrite length_app, make_app.
  pose proof (resolve_children_prefix (parseSitemap fuel) before
                (s :: after) subs [] (make (length (s :: after))) Hsubs) as Hloop.
  cbn [length app Nat.add] in Hloop. cbn [length]. rewrite Hloop.
  cbn [resolve_children]. rewrite Hfail. reflexivity.
Qed.

(** C10: the list returned for an index with [n] children that resolve has
    [n] entries more than the children's lists together; its first [n]
    entries are the markers of the children, in document order, and the
    entries after them are the children's lists. *)
Theorem C10_index_length_and_markers (fuel : nat) (url : string)
    (doc : Sitemap) (subs : list (list string)) :
  serves url doc -> URLs doc = [] -> resolve_to fuel (Sitemaps doc) subs ->
  exists urls : list string,
    fst (parseSitemap (S fuel) url) = Returns (Ok urls)
    /\ length urls = (length (Sitemaps doc) + list_sum (map length subs))%nat
    /\ (forall (i : nat) (s : SitemapSitemap.t),
          Sitemaps doc !! i = Some s ->
          urls !! i = Some ("Sitemap index: " +:+ SitemapSitemap.Loc s))
    /\ drop (length (Sitemaps doc)) urls = concat subs.
Proof.
  intros Hdoc Hnil Hsubs.
  exists (map child_marker (Sitemaps doc) ++ concat subs).
  split; [|split; [|split]].
  - rewrite (index_result fuel url doc subs Hdoc Hnil Hsubs). reflexivity.
  - rewrite length_app, length_map, length_concat. reflexivity.
  - intros i s Hi.
    rewrite lookup_app_l by (rewrite length_map; eapply lookup_lt_Some; exact Hi).
    rewrite list_lookup_fmap_Some. exists s. split; [reflexivity | exact Hi].
  - rewrite drop_app_length'; [reflexivity | symmetry; apply length_map].
Qed.

End ResolverClaims.

(** ** Package [strings] *)

Lemma Split_newline_nonempty (s : string) : Split_newline s <> [].
Proof.
  induction s as [|c s IH]; cbn [Split_newline]; [discriminate|].
  destruct (Ascii.eqb c newline); [discriminate|].
  destruct (Split_newline s); [congruence | discriminate].
Qed.

Example Split_newline_pieces :
  Split_newline (lines_of ["User-agent: *"; "Disallow:"])
  = ["User-agent: *"; "Disallow:"; ""]
  /\ Split_newline "Sitemap: /s.xml" = ["Sitemap: /s.xml"]
  /\ Split_newline "" = [""].
Proof. repeat split. Qed.

Lemma HasPrefix_app (prefix s : string) : HasPrefix (prefix +:+ s) prefix = true.
Proof.
  unfold HasPrefix. induction prefix as [|c prefix IH]; simpl.
  - destruct s; reflexivity.
  - destruct (ascii_dec c c) as [_|Hne]; [exact IH | congruence].
Qed.

Lemma string_skip_app (prefix s : string) :
  string_skip (String.length prefix) (prefix +:+ s) = s.
Proof. induction prefix as [|c prefix IH]; [reflexivity | exact IH]. Qed.

Lemma TrimPrefix_app (prefix s : string) : TrimPrefix (prefix +:+ s) prefix = s.
Proof. unfold TrimPrefix. rewrite HasPrefix_app. apply string_skip_app. Qed.

(** ** The robots file *)

Lemma scan_lines_skips (before rest : list string) :
  Forall (fun line => HasPrefix line "Sitemap:" = false) before ->
  scan_lines (before ++ rest) = scan_lines rest.
Proof.
  induction 1 as [|line before Hline _ IH]; [reflexivity|].
  cbn [app scan_lines]. rewrite Hline. exact IH.
Qed.

(** The first directive decides, and a directive followed by a space gives
    what follows that space. *)
Lemma scan_lines_directive_with_space (before after : list string) (address : string) :
  Forall (fun line => HasPrefix line "Sitemap:" = false) before ->
  scan_lines (before ++ ("Sitemap: " +:+ address) :: after) = address.
Proof.
  intros Hbefore. rewrite (scan_lines_skips _ _ Hbefore). cbn [scan_lines].
  change ("Sitemap: " +:+ address) with ("Sitemap:" +:+ (" " +:+ address)) at 1.
  rewrite HasPrefix_app. apply TrimPrefix_app.
Qed.

(** A directive that is not followed by a space is returned whole. *)
Lemma scan_lines_directive_without_space (before after : list string) (line : string) :
  Forall (fun line => HasPrefix line "Sitemap:" = false) before ->
  HasPrefix line "Sitemap:" = true -> HasPrefix line "Sitemap: " = false ->
  scan_lines (before ++ line :: after) = line.
Proof.
  intros Hbefore Hline Hspace. rewrite (scan_lines_skips _ _ Hbefore).
  cbn [scan_lines]. rewrite Hline. unfold TrimPrefix. rewrite Hspace. reflexivity.
Qed.

Section LocatorFacts.
Context `{W : World}.

Lemma isValidDomain_extractDomain (domain : string) :
  isValidDomain domain = negb (String.eqb (extractDomain domain) "").
Proof.
  unfold isValidDomain, extractDomain.
  destruct (String.length domain =? 0)%nat; [reflexivity|].
  destruct (url_Parse (with_scheme domain)); reflexivity.
Qed.

(** The locator reads its input through [isValidDomain] and
    [extractDomain] only, the message of the validation error apart. *)
Lemma locate_by_host (a b : string) :
  isValidDomain a = true -> extractDomain a = extractDomain b ->
  getSitemapURLFromDomain a = getSitemapURLFromDomain b.
Proof.
  intros Ha Hhost.
  assert (Hb : isValidDomain b = true)
    by (rewrite isValidDomain_extractDomain, <- Hhost, <- isValidDomain_extractDomain; exact Ha).
  unfold getSitemapURLFromDomain. rewrite Ha, Hb, Hhost. reflexivity.
Qed.

Lemma locate_invalid (domain : string) :
  isValidDomain domain = false ->
  getSitemapURLFromDomain domain
  = (Err (Errorf ("Failed to validate " +:+ domain)), []).
Proof. intros H. unfold getSitemapURLFromDomain. rewrite H. reflexivity. Qed.

Lemma with_scheme_bare (domain : string) :
  HasPrefix domain "http://" = false -> HasPrefix domain "https://" = false ->
  with_scheme domain = "http://" +:+ domain.
Proof. intros H1 H2. unfold with_scheme. rewrite H1, H2. reflexivity. Qed.

Lemma with_scheme_explicit (scheme domain : string) :
  scheme = "http://" \/ scheme = "https://" ->
  with_scheme (scheme +:+ domain) = scheme +:+ domain.
Proof.
  intros [-> | ->]; unfold with_scheme.
  - rewrite HasPrefix_app. reflexivity.
  - rewrite (HasPrefix_app "https://"), andb_false_r. reflexivity.
Qed.

Lemma extractDomain_default_scheme (domain : string) :
  domain <> "" ->
  HasPrefix domain "http://" = false -> HasPrefix domain "https://" = false ->
  extractDomain ("http://" +:+ domain) = extractDomain domain.
Proof.
  intros Hne H1 H2. unfold extractDomain.
  rewrite (with_scheme_explicit "http://") by (left; reflexivity).
  rewrite (with_scheme_bare domain H1 H2).
  destruct domain; [congruence | reflexivity].
Qed.

(** Candidates that answer with another status than 200 are passed over. *)
Lemma probe_skips (domain : string) (before rest : list string) :
  Forall (fun location =>
            exists resp, client_Get (candidate domain location) = Ok resp
                         /\ StatusCode resp <> StatusOK) before ->
  probe domain (before ++ rest)
  = let '(r, t) := probe domain rest in (r, map (candidate domain) before ++ t).
Proof.
  induction 1 as [|location before (resp & Hget & Hstatus) _ IH].
  - cbn [app map]. destruct (probe domain rest); reflexivity.
  - cbn [app probe map]. rewrite Hget.
    apply Z.eqb_neq in Hstatus. rewrite Hstatus, IH.
    destruct (probe domain rest); reflexivity.
Qed.

(** A robots file that declares an address ends the call. *)
Lemma locate_declared (domain : string) (resp : Response) (robotsTxt address : string) :
  isValidDomain domain = true ->
  client_Get ("https://" +:+ extractDomain domain +:+ "/robots.txt") = Ok resp ->
  StatusCode resp = StatusOK -> Body resp = Ok robotsTxt ->
  parseSitemapFromRobotsTxt robotsTxt = address -> address <> "" ->
  getSitemapURLFromDomain domain
  = (Ok address, ["https://" +:+ extractDomain domain +:+ "/robots.txt"]).
Proof.
  intros Hvalid Hget Hstatus Hbody Hparse Hne.
  unfold getSitemapURLFromDomain. rewrite Hvalid. cbn [negb].
  rewrite Hget, Hstatus, Hbody, Hparse. cbn.
  destruct (String.eqb_spec address ""); [congruence | reflexivity].
Qed.

(** A robots file that declares nothing hands over to the candidates. *)
Lemma locate_undeclared (domain : string) (resp : Response) :
  isValidDomain domain = true ->
  client_Get ("https://" +:+ extractDomain domain +:+ "/robots.txt") = Ok resp ->
  StatusCode resp <> StatusOK
  \/ (exists robotsTxt, Body resp = Ok robotsTxt
                        /\ parseSitemapFromRobotsTxt robotsTxt = "") ->
  getSitemapURLFromDomain domain
  = probe_candidates (extractDomain domain)
      ("https://" +:+ extractDomain domain +:+ "/robots.txt").
Proof.
  intros Hvalid Hget Hsilent.
  unfold getSitemapURLFromDomain. rewrite Hvalid. cbn [negb]. rewrite Hget.
  destruct Hsilent as [Hstatus | (robotsTxt & Hbody & Hparse)].
  - apply Z.eqb_neq in Hstatus. rewrite Hstatus. reflexivity.
  - destruct (StatusCode resp =? StatusOK)%Z; [|reflexivity].
    rewrite Hbody, Hparse. reflexivity.
Qed.

(** X9: when the robots file declares nothing and every candidate of the
    list answers with another status than 200, the call fails with the
    error that names the extracted host, after requesting the robots file
    and each of the 35 entries of the list, in order, the entries that the
    list holds twice included. *)
Lemma locate_not_found (domain : string) (resp : Response) :
  isValidDomain domain = true ->
  client_Get ("https://" +:+ extractDomain domain +:+ "/robots.txt") = Ok resp ->
  StatusCode resp <> StatusOK
  \/ (exists robotsTxt, Body resp = Ok robotsTxt
                        /\ parseSitemapFromRobotsTxt robotsTxt = "") ->
  Forall (fun location =>
            exists resp, client_Get (candidate (extractDomain domain) location) = Ok resp
                         /\ StatusCode resp <> StatusOK) sitemapLocations ->
  getSitemapURLFromDomain domain
  = (Err (Errorf ("Couldn't find sitemap for " +:+ extractDomain domain)),
     ("https://" +:+ extractDomain domain +:+ "/robots.txt")
       :: map (candidate (extractDomain domain)) sitemapLocations).
Proof.
  intros Hvalid Hget Hsilent Hall.
  rewrite (locate_undeclared domain resp Hvalid Hget Hsilent).
  unfold probe_candidates.
  pose proof (probe_skips (extractDomain domain) sitemapLocations [] Hall) as Hloop.
  rewrite app_nil_r in Hloop. rewrite Hloop. cbn [probe]. rewrite app_nil_r.
  reflexivity.
Qed.

End LocatorFacts.

(** ** The locator *)

Section LocatorClaims.
Context `{W : World}.

(** C4: when the robots file declares nothing and the candidates before
    [location] answer with another status than 200, they are passed over;
    if [location] then answers 200, its address is returned and nothing
    after it is requested, and if its request fails with [err], the call
    fails with [err] and nothing after it is requested either. *)
Theorem C4_probe_first_ok_or_abort (domain : string) (robots : Response)
    (before after : list string) (location : string) :
  let host := extractDomain domain in
  let robotsURL := "https://" +:+ host +:+ "/robots.txt" in
  let requested :=
    robotsURL :: map (candidate host) before ++ [candidate host location] in
  isValidDomain domain = true ->
  client_Get robotsURL = Ok robots ->
  StatusCode robots <> StatusOK
  \/ (exists robotsTxt, Body robots = Ok robotsTxt
                        /\ parseSitemapFromRobotsTxt robotsTxt = "") ->
  sitemapLocations = before ++ location :: after ->
  Forall (fun earlier =>
            exists resp, client_Get (candidate host earlier) = Ok resp
                         /\ StatusCode resp <> StatusOK) before ->
  (forall resp,
      client_Get (candidate host location) = Ok resp ->
      StatusCode resp = StatusOK ->
      getSitemapURLFromDomain domain = (Ok (candidate host location), requested))
  /\ (forall err,
        client_Get (candidate host location) = Err err ->
        getSitemapURLFromDomain domain = (Err err, requested)).
Proof.
  intros host robotsURL requested Hvalid Hrobots Hsilent Hsplit Hbefore.
  pose proof (locate_undeclared domain robots Hvalid Hrobots Hsilent) as Hlocate.
  fold host in Hlocate. fold robotsURL in Hlocate.
  unfold probe_candidates in Hlocate.
  rewrite Hsplit, (probe_skips host before (location :: after) Hbefore) in Hlocate.
  cbn [probe] in Hlocate.
  split.
  - intros resp Hget Hstatus. rewrite Hget, Hstatus in Hlocate. exact Hlocate.
  - intros err Hget. rewrite Hget in Hlocate. exact Hlocate.
Qed.

(** Whatever the parser does: a non-empty input without a scheme and the
    input with [scheme] in front are treated alike as soon as the same host
    is extracted from both, which is always so for "http://". *)
Lemma same_host_same_behaviour (domain scheme : string) :
  domain <> "" ->
  HasPrefix domain "http://" = false -> HasPrefix domain "https://" = false ->
  scheme = "http://" \/ scheme = "https://" ->
  extractDomain (scheme +:+ domain) = extractDomain ("http://" +:+ domain) ->
  if isValidDomain domain
  then getSitemapURLFromDomain (scheme +:+ domain) = getSitemapURLFromDomain domain
  else getSitemapURLFromDomain domain
       = (Err (Errorf ("Failed to validate " +:+ domain)), [])
       /\ getSitemapURLFromDomain (scheme +:+ domain)
          = (Err (Errorf ("Failed to validate " +:+ scheme +:+ domain)), []).
Proof.
  intros Hne Hhttp Hhttps Hscheme Hparser.
  rewrite (extractDomain_default_scheme domain Hne Hhttp Hhttps) in Hparser.
  destruct (isValidDomain domain) eqn:Hvalid.
  - symmetry. apply locate_by_host; [exact Hvalid | symmetry; exact Hparser].
  - split; [apply locate_invalid; exact Hvalid|].
    apply locate_invalid.
    rewrite isValidDomain_extractDomain, Hparser, <- isValidDomain_extractDomain.
    exact Hvalid.
Qed.

Lemma extractDomain_explicit_scheme (scheme domain : string) :
  scheme = "http://" \/ scheme = "https://" ->
  extractDomain (scheme +:+ domain) = parsed_host (scheme +:+ domain).
Proof.
  intros Hscheme. unfold extractDomain, parsed_host.
  rewrite (with_scheme_explicit scheme domain Hscheme).
  destruct Hscheme as [-> | ->]; reflexivity.
Qed.

(** C5, as the code has it: for every input without a scheme, the empty
    one included, the call on the input with "http://" or "https://" put in
    front requests the same addresses and returns the same result or the
    same error, except that the error of a rejected input names the input
    as it was given.  The parser is taken to read the host after the
    scheme, as [url.Parse] does. *)
Theorem C5_scheme_prefix_same_up_to_message (domain scheme : string) :
  parser_reads_host_after_scheme ->
  HasPrefix domain "http://" = false -> HasPrefix domain "https://" = false ->
  scheme = "http://" \/ scheme = "https://" ->
  if isValidDomain domain
  then getSitemapURLFromDomain (scheme +:+ domain) = getSitemapURLFromDomain domain
  else getSitemapURLFromDomain domain
       = (Err (Errorf ("Failed to validate " +:+ domain)), [])
       /\ getSitemapURLFromDomain (scheme +:+ domain)
          = (Err (Errorf ("Failed to validate " +:+ scheme +:+ domain)), []).
Proof.
  intros [Hblind Hbare] Hhttp Hhttps Hscheme.
  assert (Hhost : extractDomain (scheme +:+ domain) = extractDomain domain).
  { rewrite (extractDomain_explicit_scheme scheme domain Hscheme).
    assert (Hdefault : parsed_host (scheme +:+ domain) = parsed_host ("http://" +:+ domain))
      by (destruct Hscheme as [-> | ->]; [reflexivity | apply Hblind]).
    rewrite Hdefault.
    destruct domain as [|c domain]; [exact Hbare|].
    unfold extractDomain, parsed_host.
    rewrite (with_scheme_bare _ Hhttp Hhttps). reflexivity. }
  destruct (isValidDomain domain) eqn:Hvalid.
  - symmetry. apply locate_by_host; [exact Hvalid | symmetry; exact Hhost].
  - split; [apply locate_invalid; exact Hvalid|].
    apply locate_invalid.
    rewrite isValidDomain_extractDomain, Hhost, <- isValidDomain_extractDomain.
    exact Hvalid.
Qed.

(** C6: an input that, with the default scheme put in front where it has
    none, does not parse to a URL with a non-empty host is rejected with
    the validation error, and nothing is requested. *)
Theorem C6_invalid_domain_rejected_offline (domain : string) :
  (forall parsedURL, url_Parse (with_scheme domain) = Ok parsedURL ->
                     Host parsedURL = "") ->
  getSitemapURLFromDomain domain
  = (Err (Errorf ("Failed to validate " +:+ domain)), []).
Proof.
  intros Hhost. apply locate_invalid. unfold isValidDomain.
  destruct (String.length domain =? 0)%nat; [reflexivity|].
  destruct (url_Parse (with_scheme domain)) as [parsedURL|]; [|reflexivity].
  rewrite (Hhost parsedURL eq_refl). reflexivity.
Qed.

End LocatorClaims.

(** ** Worked examples in the sample environment *)

Lemma sample_serves (url body : string) (doc : Sitemap) :
  http_Get url = page body -> xml_Unmarshal body = Ok doc -> serves url doc.
Proof.
  intros Hget Hdoc. exists {| StatusCode := 200; Body := Ok body |}, body.
  split; [exact Hget | split; [reflexivity | exact Hdoc]].
Defined.

(** C1 as stated fails: the index of the children [a.xml] (one URL, /x) and
    [b.xml] (one URL, /y) resolves to both markers followed by both URLs,
    and with no recursion budget to the interleaved list. *)
Lemma C1_interleaving_refuted :
  fst (parseSitemap 2 "https://example.com/index.xml")
  = Returns (Ok ["Sitemap index: https://example.com/a.xml";
                 "Sitemap index: https://example.com/b.xml"; "/x"; "/y"])
  /\ ~ (exists fuel,
          fst (parseSitemap fuel "https://example.com/index.xml")
          = Returns (Ok ["Sitemap index: https://example.com/a.xml"; "/x";
                         "Sitemap index: https://example.com/b.xml"; "/y"])).
Proof.
  split; [reflexivity|].
  intros [[|[|fuel]] Hres]; vm_compute in Hres; discriminate Hres.
Qed.

(** The index of [a.xml] and [b.xml], by C1. *)
Lemma C1_witness :
  fst (parseSitemap 2 "https://example.com/index.xml")
  = Returns (Ok ["Sitemap index: https://example.com/a.xml";
                 "Sitemap index: https://example.com/b.xml"; "/x"; "/y"]).
Proof.
  apply (C1_index_markers_then_children 1 "https://example.com/index.xml"
           {| URLs := [];
              Sitemaps := map sitemap_entry
                ["https://example.com/a.xml"; "https://example.com/b.xml"] |}
           [["/x"]; ["/y"]]).
  - apply (sample_serves _ index_ab); reflexivity.
  - reflexivity.
  - repeat constructor.
Defined.

(** The leaf with the entries /a, /b and /c, by C2. *)
Lemma C2_witness :
  parseSitemap 1 "https://example.com/abc.xml"
  = (Returns (Ok ["/a"; "/b"; "/c"]), ["https://example.com/abc.xml"]).
Proof.
  apply (C2_leaf_returned_verbatim 0 "https://example.com/abc.xml"
           {| URLs := map url_entry ["/a"; "/b"; "/c"]; Sitemaps := [] |}).
  - apply (sample_serves _ leaf_abc); reflexivity.
  - discriminate.
Defined.

(** A document with both kinds of entries: the child is not requested. *)
Example mixed_document_is_a_leaf :
  parseSitemap 2 "https://example.com/mixed.xml"
  = (Returns (Ok ["/m"]), ["https://example.com/mixed.xml"]).
Proof. reflexivity. Qed.

(** C3: the robots file of [example.net] has the line
    [Sitemap:https://example.net/s1.xml]; the address returned for it still
    carries the directive's name. *)
Theorem C3_directive_without_space_kept_whole :
  parseSitemapFromRobotsTxt
    (lines_of ["User-agent: *"; "Sitemap:https://example.net/s1.xml"])
  = "Sitemap:https://example.net/s1.xml"
  /\ getSitemapURLFromDomain "example.net"
     = (Ok "Sitemap:https://example.net/s1.xml", ["https://example.net/robots.txt"]).
Proof. split; reflexivity. Qed.

(** With the space the address is what the claim says, and no candidate is
    requested. *)
Example directive_with_space_is_stripped :
  getSitemapURLFromDomain "example.org"
  = (Ok "https://example.org/s1.xml", ["https://example.org/robots.txt"]).
Proof. reflexivity. Qed.

(** The robots file of [example.com] declares nothing, the first two
    candidates answer 404 and the third 200: by C4 the third is returned
    after four requests. *)
Lemma C4_witness :
  getSitemapURLFromDomain "example.com"
  = (Ok "https://example.com/sitemap1.xml",
     ["https://example.com/robots.txt"; "https://example.com/test.xml";
      "https://example.com/sitemap.xml"; "https://example.com/sitemap1.xml"]).
Proof.
  refine (proj1 (C4_probe_first_ok_or_abort "example.com"
                   {| StatusCode := 200;
                      Body := Ok (lines_of ["User-agent: *"; "Disallow: /private"]) |}
                   ["/test.xml"; "/sitemap.xml"] (skipn 3 sitemapLocations)
                   "/sitemap1.xml" _ _ _ _ _)
                {| StatusCode := 200; Body := Ok "<sitemapindex/>" |} _ _);
    try reflexivity.
  - right. eexists. split; reflexivity.
  - repeat constructor; exists not_found; split; try reflexivity; discriminate.
Defined.

(** C5 as stated fails: the two calls report different errors. *)
Lemma C5_error_names_the_input :
  HasPrefix "not a domain" "http://" = false
  /\ HasPrefix "not a domain" "https://" = false
  /\ getSitemapURLFromDomain "not a domain"
     = (Err (Errorf "Failed to validate not a domain"), [])
  /\ getSitemapURLFromDomain "http://not a domain"
     = (Err (Errorf "Failed to validate http://not a domain"), [])
  /\ getSitemapURLFromDomain "not a domain"
     <> getSitemapURLFromDomain ("http://" +:+ "not a domain").
Proof. repeat split; try reflexivity. vm_compute. discriminate. Qed.

Lemma parsing_site_reads_host_after_scheme :
  @parser_reads_host_after_scheme parsing_site.
Proof. split; [intros rest|]; reflexivity. Defined.

(** A valid input with and without "https://", and the empty input with and
    without it, by C5. *)
Lemma C5_witness :
  @getSitemapURLFromDomain parsing_site "https://example.com"
  = @getSitemapURLFromDomain parsing_site "example.com"
  /\ (@getSitemapURLFromDomain parsing_site ""
      = (Err (Errorf "Failed to validate "), [])
      /\ @getSitemapURLFromDomain parsing_site "https://"
         = (Err (Errorf "Failed to validate https://"), [])).
Proof.
  split.
  - refine (@C5_scheme_prefix_same_up_to_message parsing_site "example.com" "https://"
              parsing_site_reads_host_after_scheme _ _ _);
      [reflexivity | reflexivity | right; reflexivity].
  - refine (@C5_scheme_prefix_same_up_to_message parsing_site "" "https://"
              parsing_site_reads_host_after_scheme _ _ _);
      [reflexivity | reflexivity | right; reflexivity].
Defined.

(** A scheme without a host is rejected, by C6. *)
Lemma C6_witness :
  getSitemapURLFromDomain "http://"
  = (Err (Errorf "Failed to validate http://"), []).
Proof.
  apply (C6_invalid_domain_rejected_offline "http://").
  intros parsedURL Hparse. injection Hparse as <-. reflexivity.
Defined.

(** C7 as stated fails: the page of a server that answers a missing
    sitemap with an HTML page is well-formed XML and no sitemap, and it
    resolves to the empty list without an error. *)
Lemma C7_other_xml_resolves_to_nil :
  @xml_Unmarshal html_site not_found_page = Ok {| URLs := []; Sitemaps := [] |}
  /\ @parseSitemap html_site 1 "https://example.com/missing.xml"
     = (Returns (Ok []), ["https://example.com/missing.xml"])
  /\ ~ (exists fuel err,
          fst (@parseSitemap html_site fuel "https://example.com/missing.xml")
          = Returns (Err err)).
Proof.
  split; [reflexivity|]. split; [reflexivity|].
  intros ([|fuel] & err & Hres); vm_compute in Hres; discriminate Hres.
Qed.

(** A body that breaks off in the middle of an element, and the page that
    is no sitemap, by C7. *)
Lemma C7_witness :
  (parseSitemap 1 "https://example.com/broken.xml"
   = (Returns (Err (LibError "XML syntax error on line 1: unexpected EOF")),
      ["https://example.com/broken.xml"])
   <-> xml_Unmarshal truncated
       = Err (LibError "XML syntax error on line 1: unexpected EOF"))
  /\ @parseSitemap html_site 1 "https://example.com/missing.xml"
     = (Returns (Ok []), ["https://example.com/missing.xml"]).
Proof.
  split.
  - refine (proj1 (C7_fails_exactly_when_decoder_rejects 0
                     "https://example.com/broken.xml"
                     {| StatusCode := 200; Body := Ok truncated |} truncated
                     (LibError "XML syntax error on line 1: unexpected EOF") _ _));
      reflexivity.
  - refine (proj2 (proj2 (@C7_fails_exactly_when_decoder_rejects html_site 0
                            "https://example.com/missing.xml"
                            {| StatusCode := 404; Body := Ok not_found_page |}
                            not_found_page (LibError "EOF") _ _))
                  {| URLs := []; Sitemaps := [] |} _ _ _);
      reflexivity.
Defined.

(** An index without entries, by C8. *)
Lemma C8_witness :
  parseSitemap 1 "https://example.com/empty.xml"
  = (Returns (Ok []), ["https://example.com/empty.xml"]).
Proof.
  apply (C8_empty_index_resolves_to_nil 0 "https://example.com/empty.xml"
           {| URLs := []; Sitemaps := [] |}).
  - apply (sample_serves _ index_empty); reflexivity.
  - reflexivity.
  - reflexivity.
Defined.

(** The second of three children cannot be decoded: by C9 the third is
    not requested. *)
Lemma C9_witness :
  parseSitemap 2 "https://example.com/partial.xml"
  = (Returns (Err (LibError "XML syntax error on line 1: unexpected EOF")),
     ["https://example.com/partial.xml"; "https://example.com/a.xml";
      "https://example.com/broken.xml"]).
Proof.
  refine (C9_child_failure_aborts 1 "https://example.com/partial.xml"
           {| URLs := [];
              Sitemaps := map sitemap_entry
                ["https://example.com/a.xml"; "https://example.com/broken.xml";
                 "https://example.com/b.xml"] |}
           [sitemap_entry "https://example.com/a.xml"]
           [sitemap_entry "https://example.com/b.xml"]
           (sitemap_entry "https://example.com/broken.xml")
           [["/x"]]
           (LibError "XML syntax error on line 1: unexpected EOF")
           ["https://example.com/broken.xml"] _ _ _ _ _).
  - apply (sample_serves _ index_broken); reflexivity.
  - reflexivity.
  - reflexivity.
  - repeat constructor.
  - reflexivity.
Defined.

(** The index of [a.xml] and [b.xml], by C10. *)
Lemma C10_witness :
  exists urls : list string,
    fst (parseSitemap 2 "https://example.com/index.xml") = Returns (Ok urls)
    /\ length urls = 4%nat
    /\ (forall (i : nat) (s : SitemapSitemap.t),
          map sitemap_entry
            ["https://example.com/a.xml"; "https://example.com/b.xml"] !! i = Some s ->
          urls !! i = Some ("Sitemap index: " +:+ SitemapSitemap.Loc s))
    /\ drop 2 urls = ["/x"; "/y"].
Proof.
  apply (C10_index_length_and_markers 1 "https://example.com/index.xml"
           {| URLs := [];
              Sitemaps := map sitemap_entry
                ["https://example.com/a.xml"; "https://example.com/b.xml"] |}
           [["/x"]; ["/y"]]).
  - apply (sample_serves _ index_ab); reflexivity.
  - reflexivity.
  - repeat constructor.
Defined.


(** * Further properties of the resolver *)

Section ResolverMore.
Context `{W : World}.

(** A loop that ends with a list has resolved every child. *)
Lemma resolve_children_ok_inv (resolve : string -> run (list string) * trace)
    (children : list SitemapSitemap.t) :
  forall i urls out,
    fst (resolve_children resolve i children urls) = Returns (Ok out) ->
    exists subs,
      Forall2 (fun s sub => fst (resolve (SitemapSitemap.Loc s)) = Returns (Ok sub))
              children subs.
Proof.
  induction children as [|s rest IH]; intros i urls out Hout.
  - exists []. constructor.
  - cbn [resolve_children] in Hout.
    destruct (resolve (SitemapSitemap.Loc s)) as [[[subUrls|err]| |] t] eqn:Hs;
      cbn [fst] in Hout; try discriminate.
    destruct (assign urls i (marker (SitemapSitemap.Loc s))) as [urls'|];
      cbn [fst] in Hout; [|discriminate].
    destruct (resolve_children resolve (S i) rest (urls' ++ subUrls)) as [r t'] eqn:Hrest.
    cbn [fst] in Hout. subst r.
    destruct (IH (S i) (urls' ++ subUrls) out) as [subs Hsubs];
      [rewrite Hrest; reflexivity|].
    exists (subUrls :: subs). constructor; [rewrite Hs; reflexivity | exact Hsubs].
Qed.

(** X1: a call of [parseSitemap] returns, with a list or an error, or goes
    on beyond the given depth; it never panics on an index out of range. *)
Theorem X1_resolver_never_panics (fuel : nat) (url : string) :
  fst (parseSitemap fuel url) = OutOfFuel
  \/ exists r : result (list string), fst (parseSitemap fuel url) = Returns r.
Proof.
  pose proof (parseSitemap_never_panics fuel url) as Hsafe.
  destruct (fst (parseSitemap fuel url)) as [r| |].
  - right. exists r. reflexivity.
  - congruence.
  - left. reflexivity.
Qed.

(** X2: an index that lists its own address among its children is never
    resolved to a list, whatever the depth allowed: the code has no guard
    against cycles. *)
Theorem X2_self_listing_index_never_resolves (url : string) (doc : Sitemap) :
  serves url doc -> URLs doc = [] ->
  In url (map SitemapSitemap.Loc (Sitemaps doc)) ->
  forall (fuel : nat) (urls : list string),
    fst (parseSitemap fuel url) <> Returns (Ok urls).
Proof.
  intros Hdoc Hnil Hself fuel.
  induction fuel as [|fuel IH]; intros urls Hres; [discriminate|].
  rewrite (parseSitemap_index fuel url doc Hdoc Hnil) in Hres.
  destruct (resolve_children (parseSitemap fuel) 0 (Sitemaps doc)
              (make (length (Sitemaps doc)))) as [r t] eqn:Hloop.
  cbn [fst] in Hres. subst r.
  destruct (resolve_children_ok_inv (parseSitemap fuel) (Sitemaps doc) 0
              (make (length (Sitemaps doc))) urls) as [subs Hsubs];
    [rewrite Hloop; reflexivity|].
  clear Hloop. induction Hsubs as [|s sub rest subs Hs _ IHrest].
  - destruct Hself.
  - destruct Hself as [Hhere | Hlater]; [|exact (IHrest Hlater)].
    rewrite Hhere in Hs. exact (IH sub Hs).
Qed.

(** X4: resolving an index requests the index itself and then, child by
    child in document order, what resolving each child requests; a child
    listed twice is requested twice. *)
Theorem X4_index_requests_in_document_order (fuel : nat) (url : string)
    (doc : Sitemap) (subs : list (list string)) :
  serves url doc -> URLs doc = [] -> resolve_to fuel (Sitemaps doc) subs ->
  snd (parseSitemap (S fuel) url)
  = url :: concat (map (requests fuel) (Sitemaps doc)).
Proof.
  intros Hdoc Hnil Hsubs.
  rewrite (index_result fuel url doc subs Hdoc Hnil Hsubs). reflexivity.
Qed.

(** X6: when the call for an index returns a list, every child was
    resolved to a list, and the list returned is the children's markers
    followed by these lists. *)
Theorem X6_index_list_means_all_children_resolved (fuel : nat) (url : string)
    (doc : Sitemap) (urls : list string) :
  serves url doc -> URLs doc = [] ->
  fst (parseSitemap (S fuel) url) = Returns (Ok urls) ->
  exists subs : list (list string),
    resolve_to fuel (Sitemaps doc) subs
    /\ urls = map child_marker (Sitemaps doc) ++ concat subs.
Proof.
  intros Hdoc Hnil Hres.
  pose proof Hres as Hloop.
  rewrite (parseSitemap_index fuel url doc Hdoc Hnil) in Hloop.
  destruct (resolve_children (parseSitemap fuel) 0 (Sitemaps doc)
              (make (length (Sitemaps doc)))) as [r t] eqn:Hrun.
  cbn [fst] in Hloop. subst r.
  destruct (resolve_children_ok_inv (parseSitemap fuel) (Sitemaps doc) 0
              (make (length (Sitemaps doc))) urls) as [subs Hsubs];
    [rewrite Hrun; reflexivity|].
  exists subs. split; [exact Hsubs|].
  rewrite (index_result fuel url doc subs Hdoc Hnil Hsubs) in Hres.
  cbn [fst] in Hres. congruence.
Qed.

(** An error of the loop is the error of the child called last. *)
Lemma resolve_children_error_origin (resolve : string -> run (list string) * trace)
    (children : list SitemapSitemap.t) :
  (forall u err t, resolve u = (Returns (Err err), t) ->
                   exists t' a, t = t' ++ [a] /\ fails_at a err) ->
  forall i urls err t,
    resolve_children resolve i children urls = (Returns (Err err), t) ->
    exists t' a, t = t' ++ [a] /\ fails_at a err.
Proof.
  intros Hresolve. induction children as [|s rest IH]; intros i urls err t Hloop.
  - discriminate.
  - cbn [resolve_children] in Hloop.
    destruct (resolve (SitemapSitemap.Loc s)) as [[[subUrls|err0]| |] t0] eqn:Hs;
      try discriminate.
    + destruct (assign urls i (marker (SitemapSitemap.Loc s))) as [urls'|];
        [|discriminate].
      destruct (resolve_children resolve (S i) rest (urls' ++ subUrls)) as [r t1] eqn:Hrest.
      injection Hloop as -> <-.
      destruct (IH _ _ _ _ Hrest) as (t' & a & -> & Ha).
      exists (t0 ++ t'), a. split; [apply app_assoc | exact Ha].
    + injection Hloop as -> <-. exact (Hresolve _ _ _ Hs).
Qed.

(** X5: an error returned by [parseSitemap] is the error the libraries gave
    for the address requested last (its request, the reading of its body or
    its decoding): errors are passed up as they are, and nothing is
    requested after the failure. *)
Theorem X5_error_is_that_of_the_last_request (fuel : nat) :
  forall (url : string) (err : error) (t : trace),
    parseSitemap fuel url = (Returns (Err err), t) ->
    exists (earlier : trace) (address : string),
      t = earlier ++ [address] /\ fails_at address err.
Proof.
  induction fuel as [|fuel IH]; intros url err t Hres; [discriminate|].
  change (parseSitemap (S fuel) url)
    with (parseSitemap_body (parseSitemap fuel) url) in Hres.
  unfold parseSitemap_body in Hres.
  destruct (http_Get url) as [resp|err0] eqn:Hget.
  2:{ injection Hres as <- <-. exists [], url. split; [reflexivity|].
      left. exact Hget. }
  destruct (Body resp) as [body|err0] eqn:Hbody.
  2:{ injection Hres as <- <-. exists [], url. split; [reflexivity|].
      right. exists resp. split; [exact Hget | left; exact Hbody]. }
  destruct (xml_Unmarshal body) as [doc|err0] eqn:Hxml.
  2:{ injection Hres as <- <-. exists [], url. split; [reflexivity|].
      right. exists resp. split; [exact Hget|].
      right. exists body. split; [exact Hbody | exact Hxml]. }
  destruct (0 <? length (URLs doc))%nat.
  - destruct (copy_locs 0 (URLs doc) (make (length (URLs doc)))); discriminate.
  - destruct (resolve_children (parseSitemap fuel) 0 (Sitemaps doc)
                (make (length (Sitemaps doc)))) as [r t0] eqn:Hloop.
    injection Hres as -> <-.
    destruct (resolve_children_error_origin (parseSitemap fuel) (Sitemaps doc) IH
                _ _ _ _ Hloop) as (t' & a & -> & Ha).
    exists (url :: t'), a. split; [reflexivity | exact Ha].
Qed.

End ResolverMore.

(** The loop depends on the recursive call through its answers only. *)
Lemma resolve_children_ext (f g : string -> run (list string) * trace)
    (children : list SitemapSitemap.t) :
  (forall u, f u = g u) ->
  forall i urls, resolve_children f i children urls = resolve_children g i children urls.
Proof.
  intros Hfg. induction children as [|s rest IH]; intros i urls; [reflexivity|].
  cbn [resolve_children]. rewrite Hfg.
  destruct (g (SitemapSitemap.Loc s)) as [[[subUrls|err]| |] t]; try reflexivity.
  destruct (assign urls i (marker (SitemapSitemap.Loc s))) as [urls'|]; [|reflexivity].
  rewrite IH. reflexivity.
Qed.

(** X3: [parseSitemap] does not look at the status of a response: two
    environments whose pages have the same bodies, with whatever status,
    give the same result and the same requests.  A page answered with 404
    is decoded like any other. *)
Theorem X3_resolver_ignores_status (V1 V2 : World) :
  same_pages V1 V2 ->
  forall (fuel : nat) (url : string),
    @parseSitemap V1 fuel url = @parseSitemap V2 fuel url.
Proof.
  intros [Hpages Hdecode] fuel.
  induction fuel as [|fuel IH]; intros url; [reflexivity|].
  change (@parseSitemap V1 (S fuel) url)
    with (@parseSitemap_body V1 (@parseSitemap V1 fuel) url).
  change (@parseSitemap V2 (S fuel) url)
    with (@parseSitemap_body V2 (@parseSitemap V2 fuel) url).
  unfold parseSitemap_body.
  specialize (Hpages url).
  destruct (@http_Get V1 url) as [resp1|err1], (@http_Get V2 url) as [resp2|err2];
    try contradiction; [|congruence].
  rewrite Hpages.
  destruct (Body resp2) as [body|]; [|reflexivity].
  rewrite Hdecode.
  destruct (@xml_Unmarshal V2 body) as [doc|]; [|reflexivity].
  destruct (0 <? length (URLs doc))%nat; [reflexivity|].
  rewrite (resolve_children_ext _ _ (Sitemaps doc) IH). reflexivity.
Qed.

(** * Further properties of the locator *)

(** ** Lines of the robots file *)

Lemma Split_newline_pieces_plain (s : string) :
  Forall (fun line => has_newline line = false) (Split_newline s).
Proof.
  induction s as [|c s IH]; cbn [Split_newline].
  - repeat constructor.
  - destruct (Ascii.eqb c newline) eqn:Hc.
    + constructor; [reflexivity | exact IH].
    + destruct (Split_newline s) as [|line lines].
      * repeat constructor. cbn [has_newline]. rewrite Hc. reflexivity.
      * inversion IH as [|? ? Hline Hlines]; subst.
        constructor; [|exact Hlines].
        cbn [has_newline]. rewrite Hc. exact Hline.
Qed.

Lemma Split_newline_plain (s : string) :
  has_newline s = false -> Split_newline s = [s].
Proof.
  induction s as [|c s IH]; intros Hs; [reflexivity|].
  cbn [has_newline] in Hs. apply orb_false_elim in Hs as [Hc Hs].
  cbn [Split_newline]. rewrite Hc, (IH Hs). reflexivity.
Qed.

Lemma Split_newline_first_line (line rest : string) :
  has_newline line = false ->
  Split_newline (line +:+ String newline rest) = line :: Split_newline rest.
Proof.
  induction line as [|c line IH]; intros Hline.
  - reflexivity.
  - cbn [has_newline] in Hline. apply orb_false_elim in Hline as [Hc Hline].
    change (String c line +:+ String newline rest)
      with (String c (line +:+ String newline rest)).
    cbn [Split_newline]. rewrite Hc, (IH Hline). reflexivity.
Qed.

Lemma string_app_assoc (s1 s2 s3 : string) :
  (s1 +:+ s2) +:+ s3 = s1 +:+ s2 +:+ s3.
Proof.
  induction s1 as [|c s1 IH]; [reflexivity|].
  change (String c ((s1 +:+ s2) +:+ s3) = String c (s1 +:+ s2 +:+ s3)).
  rewrite IH. reflexivity.
Qed.

Lemma string_app_nil_r (s : string) : s +:+ "" = s.
Proof.
  induction s as [|c s IH]; [reflexivity|].
  change (String c (s +:+ "") = String c s). rewrite IH. reflexivity.
Qed.

Lemma Split_newline_lines_of (before : list string) (rest : string) :
  Forall (fun line => has_newline line = false) before ->
  Split_newline (lines_of before +:+ rest) = before ++ Split_newline rest.
Proof.
  induction 1 as [|line before Hline _ IH]; [reflexivity|].
  cbn [lines_of fold_right app].
  change (fold_right (fun line rest => line +:+ String newline rest) "" before)
    with (lines_of before).
  change ((line +:+ String newline (lines_of before)) +:+ rest)
    with ((line +:+ String newline "" +:+ lines_of before) +:+ rest).
  rewrite <- (string_app_assoc line), !string_app_assoc.
  change (line +:+ String newline "" +:+ lines_of before +:+ rest)
    with (line +:+ String newline (lines_of before +:+ rest)).
  rewrite (Split_newline_first_line line _ Hline), IH. reflexivity.
Qed.

Lemma has_newline_app (s1 s2 : string) :
  has_newline (s1 +:+ s2) = has_newline s1 || has_newline s2.
Proof.
  induction s1 as [|c s1 IH]; [reflexivity|].
  change (has_newline (String c (s1 +:+ s2))
          = has_newline (String c s1) || has_newline s2).
  cbn [has_newline]. rewrite IH. apply orb_assoc.
Qed.

Lemma has_newline_skip (n : nat) :
  forall s, has_newline s = false -> has_newline (string_skip n s) = false.
Proof.
  induction n as [|n IH]; intros s Hs; [exact Hs|].
  destruct s as [|c s]; [reflexivity|].
  cbn [has_newline] in Hs. apply orb_false_elim in Hs as [_ Hs].
  cbn [string_skip]. exact (IH s Hs).
Qed.

(** X11: in a robots file whose lines before the first directive do not
    start with [Sitemap:], a directive written with one space gives
    everything between that space and the end of its line, a carriage
    return or blanks at the end of the line included; later directives are
    not looked at. *)
Theorem X11_first_directive_up_to_line_end (before : list string)
    (address tail : string) :
  Forall (fun line => has_newline line = false) before ->
  Forall (fun line => HasPrefix line "Sitemap:" = false) before ->
  has_newline address = false ->
  tail = "" \/ (exists rest, tail = String newline rest) ->
  parseSitemapFromRobotsTxt (lines_of before +:+ "Sitemap: " +:+ address +:+ tail)
  = address.
Proof.
  intros Hplain Hbefore Haddress Htail. unfold parseSitemapFromRobotsTxt.
  rewrite (Split_newline_lines_of before _ Hplain).
  assert (Hline : has_newline ("Sitemap: " +:+ address) = false)
    by (rewrite has_newline_app, Haddress; reflexivity).
  destruct Htail as [-> | [rest ->]].
  - rewrite string_app_nil_r, (Split_newline_plain _ Hline).
    apply (scan_lines_directive_with_space before [] address Hbefore).
  - rewrite <- (string_app_assoc "Sitemap: " address).
    rewrite (Split_newline_first_line ("Sitemap: " +:+ address) rest Hline).
    apply (scan_lines_directive_with_space before _ address Hbefore).
Qed.

(** X12: the address read from a robots file never holds a line feed. *)
Theorem X12_declared_address_is_one_line (robotsTxt : string) :
  has_newline (parseSitemapFromRobotsTxt robotsTxt) = false.
Proof.
  unfold parseSitemapFromRobotsTxt.
  pose proof (Split_newline_pieces_plain robotsTxt) as Hlines.
  induction Hlines as [|line lines Hline _ IH]; [reflexivity|].
  cbn [scan_lines].
  destruct (HasPrefix line "Sitemap:"); [|exact IH].
  unfold TrimPrefix.
  destruct (HasPrefix line "Sitemap: "); [|exact Hline].
  apply has_newline_skip. exact Hline.
Qed.

(** ** Requests and results of the locator *)

Section LocatorMore.
Context `{W : World}.

Lemma probe_requests_prefix (domain : string) (locations : list string) :
  snd (probe domain locations) `prefix_of` map (candidate domain) locations.
Proof.
  induction locations as [|location rest IH]; cbn [probe map].
  - apply prefix_nil.
  - destruct (client_Get (candidate domain location)) as [resp|err].
    + destruct (StatusCode resp =? StatusOK)%Z.
      * apply prefix_cons, prefix_nil.
      * destruct (probe domain rest) as [r t]. apply prefix_cons. exact IH.
    + apply prefix_cons, prefix_nil.
Qed.

Lemma probe_candidates_prefix (domain robotsURL : string) :
  snd (probe_candidates domain robotsURL)
  `prefix_of` robotsURL :: map (candidate domain) sitemapLocations.
Proof.
  unfold probe_candidates.
  pose proof (probe_requests_prefix domain sitemapLocations) as Hloop.
  destruct (probe domain sitemapLocations) as [[r|] t]; apply prefix_cons; exact Hloop.
Qed.

Lemma candidates_on_host (domain : string) (locations : list string) :
  Forall (fun address => HasPrefix address ("https://" +:+ domain) = true)
         (map (candidate domain) locations).
Proof.
  induction locations as [|location rest IH]; constructor; [|exact IH].
  unfold candidate. rewrite <- string_app_assoc. apply HasPrefix_app.
Qed.

(** X7: whatever the input and the answers, the addresses for which the
    locator calls [client.Get] are, in the order of the calls, an initial
    part of one fixed sequence: the robots file of the extracted host, then
    the candidates in the order of the list.  So there are at most 36 such
    calls, each for an address that starts with "https://" and the
    extracted host.  What the client requests by itself inside a call, for
    a redirect, is not part of the statement. *)
Theorem X7_calls_follow_the_fixed_sequence (domain : string) :
  let host := extractDomain domain in
  let sequence :=
    ("https://" +:+ host +:+ "/robots.txt")
      :: map (candidate host) sitemapLocations in
  let calls := snd (getSitemapURLFromDomain domain) in
  calls `prefix_of` sequence
  /\ (length calls <= 36)%nat
  /\ Forall (fun address => HasPrefix address ("https://" +:+ host) = true) calls.
Proof.
  intros host sequence calls.
  assert (Hprefix : calls `prefix_of` sequence).
  { unfold calls, getSitemapURLFromDomain. fold host.
    destruct (isValidDomain domain); cbn [negb]; [|apply prefix_nil].
    destruct (client_Get ("https://" +:+ host +:+ "/robots.txt")) as [resp|err];
      [|apply prefix_cons, prefix_nil].
    destruct (StatusCode resp =? StatusOK)%Z; [|apply probe_candidates_prefix].
    destruct (Body resp) as [robotsTxt|err]; [|apply prefix_cons, prefix_nil].
    destruct (negb (String.eqb (parseSitemapFromRobotsTxt robotsTxt) ""));
      [apply prefix_cons, prefix_nil | apply probe_candidates_prefix]. }
  split; [exact Hprefix|]. split.
  - apply prefix_length in Hprefix. unfold sequence in Hprefix.
    cbn [length] in Hprefix. rewrite length_map in Hprefix. exact Hprefix.
  - destruct Hprefix as [later Hsequence].
    assert (Hall : Forall (fun address => HasPrefix address ("https://" +:+ host) = true)
                          sequence).
    { constructor; [|apply candidates_on_host].
      rewrite <- string_app_assoc. apply HasPrefix_app. }
    rewrite Hsequence in Hall. apply Forall_app in Hall as [Hcalls _]. exact Hcalls.
Qed.

Lemma probe_found (domain : string) (locations : list string) :
  forall (address : string) (t : trace),
    probe domain locations = (Some (Ok address), t) ->
    exists location resp,
      In location locations /\ address = candidate domain location
      /\ client_Get address = Ok resp /\ StatusCode resp = StatusOK
      /\ last t = Some address.
Proof.
  induction locations as [|location rest IH]; intros address t Hprobe;
    cbn [probe] in Hprobe; [discriminate|].
  destruct (client_Get (candidate domain location)) as [resp|err] eqn:Hget;
    [|discriminate].
  destruct (StatusCode resp =? StatusOK)%Z eqn:Hstatus.
  - injection Hprobe as <- <-. exists location, resp.
    split; [left; reflexivity|]. split; [reflexivity|].
    split; [exact Hget|]. split; [apply Z.eqb_eq; exact Hstatus | reflexivity].
  - destruct (probe domain rest) as [r t0] eqn:Hrest.
    injection Hprobe as -> <-.
    destruct (IH address t0 eq_refl) as (l & resp' & Hin & Haddr & Hget' & Hok & Hlast).
    exists l, resp'. split; [right; exact Hin|]. split; [exact Haddr|].
    split; [exact Hget'|]. split; [exact Hok|].
    destruct t0 as [|a t0]; [discriminate|]. exact Hlast.
Qed.

Lemma probe_candidates_found (domain robotsURL address : string) (t : trace) :
  probe_candidates domain robotsURL = (Ok address, t) ->
  exists location resp,
    In location sitemapLocations /\ address = candidate domain location
    /\ client_Get address = Ok resp /\ StatusCode resp = StatusOK
    /\ last t = Some address.
Proof.
  unfold probe_candidates. intros Hfound.
  destruct (probe domain sitemapLocations) as [[r|] t0] eqn:Hprobe;
    [|discriminate].
  injection Hfound as -> <-.
  destruct (probe_found domain sitemapLocations address t0 Hprobe)
    as (l & resp & Hin & Haddr & Hget & Hok & Hlast).
  exists l, resp. repeat (split; [assumption|]).
  destruct t0 as [|a t0]; [discriminate|]. exact Hlast.
Qed.

(** X8: an address returned by the locator is never empty, and it is
    either what the robots file of the host declares, with the robots file
    the only request, or the address of a candidate of the list that
    answered with status 200 and was requested last. *)
Theorem X8_returned_address_is_declared_or_answered (domain address : string)
    (t : trace) :
  getSitemapURLFromDomain domain = (Ok address, t) ->
  let host := extractDomain domain in
  let robotsURL := "https://" +:+ host +:+ "/robots.txt" in
  address <> ""
  /\ ((exists resp robotsTxt,
          client_Get robotsURL = Ok resp /\ StatusCode resp = StatusOK
          /\ Body resp = Ok robotsTxt
          /\ parseSitemapFromRobotsTxt robotsTxt = address
          /\ t = [robotsURL])
      \/ (exists location resp,
            In location sitemapLocations /\ address = candidate host location
            /\ client_Get address = Ok resp /\ StatusCode resp = StatusOK
            /\ last t = Some address)).
Proof.
  intros Hlocate host robotsURL.
  assert (Hprobed : forall a t0,
             probe_candidates host robotsURL = (Ok a, t0) ->
             a <> "" /\ exists location resp,
               In location sitemapLocations /\ a = candidate host location
               /\ client_Get a = Ok resp /\ StatusCode resp = StatusOK
               /\ last t0 = Some a).
  { intros a t0 Hfound.
    destruct (probe_candidates_found host robotsURL a t0 Hfound)
      as (l & resp & Hin & Ha & Hrest).
    split; [rewrite Ha; discriminate|].
    exists l, resp. split; [exact Hin|]. split; [exact Ha | exact Hrest]. }
  unfold getSitemapURLFromDomain in Hlocate. fold host in Hlocate.
  fold robotsURL in Hlocate.
  destruct (isValidDomain domain); cbn [negb] in Hlocate; [|discriminate].
  destruct (client_Get robotsURL) as [resp|err] eqn:Hget; [|discriminate].
  destruct (StatusCode resp =? StatusOK)%Z eqn:Hstatus.
  - destruct (Body resp) as [robotsTxt|err] eqn:Hbody; [|discriminate].
    destruct (String.eqb_spec (parseSitemapFromRobotsTxt robotsTxt) "") as [Hempty|Hfull];
      cbn [negb] in Hlocate.
    + destruct (Hprobed _ _ Hlocate) as [Hne Hcand]. split; [exact Hne | right; exact Hcand].
    + injection Hlocate as <- <-. split; [exact Hfull|].
      left. exists resp, robotsTxt. apply Z.eqb_eq in Hstatus.
      repeat (split; [assumption || reflexivity|]). reflexivity.
  - destruct (Hprobed _ _ Hlocate) as [Hne Hcand]. split; [exact Hne | right; exact Hcand].
Qed.

(** X10: when the robots file is answered with status 200 and the first of
    its lines that starts with [Sitemap:] goes on with a space and a
    non-empty address, the locator returns this address and requests
    nothing but the robots file. *)
Theorem X10_declared_address_ends_the_call (domain : string) (resp : Response)
    (robotsTxt : string) (before after : list string) (address : string) :
  isValidDomain domain = true ->
  client_Get ("https://" +:+ extractDomain domain +:+ "/robots.txt") = Ok resp ->
  StatusCode resp = StatusOK -> Body resp = Ok robotsTxt ->
  Split_newline robotsTxt = before ++ ("Sitemap: " +:+ address) :: after ->
  Forall (fun line => HasPrefix line "Sitemap:" = false) before ->
  address <> "" ->
  getSitemapURLFromDomain domain
  = (Ok address, ["https://" +:+ extractDomain domain +:+ "/robots.txt"]).
Proof.
  intros Hvalid Hget Hstatus Hbody Hlines Hbefore Hne.
  apply (locate_declared domain resp robotsTxt address Hvalid Hget Hstatus Hbody);
    [|exact Hne].
  unfold parseSitemapFromRobotsTxt. rewrite Hlines.
  apply scan_lines_directive_with_space. exact Hbefore.
Qed.

(** X13: an input is valid exactly when a host is extracted from it. *)
Theorem X13_valid_iff_host_extracted (domain : string) :
  isValidDomain domain = true <-> extractDomain domain <> "".
Proof.
  rewrite isValidDomain_extractDomain.
  destruct (String.eqb_spec (extractDomain domain) "") as [Hempty|Hhost]; cbn [negb].
  - split; [discriminate | congruence].
  - split; [intros _; exact Hhost | reflexivity].
Qed.

End LocatorMore.

(** * Properties of the request handler *)

(** Split the goal along the branches of the handler. *)
Ltac handler_paths :=
  repeat match goal with
         | |- context [match ?x with _ => _ end] => destruct x eqn:?
         end;
  cbn [outcome requested printed].

Section HandlerFacts.
Context `{W : World} `{G : Glue}.

(** X14: a reply with status 400 or 405 (wrong method, undecodable
    payload, missing field, address that is no request URI) is given
    without any request to another host. *)
Theorem X14_client_errors_are_decided_offline (fuel : nat) (r : Request)
    (requestType : string) (reply : Reply) :
  outcome (handleRequest fuel r requestType) = Replies reply ->
  Status reply = 400%Z \/ Status reply = 405%Z ->
  requested (handleRequest fuel r requestType) = [].
Proof.
  unfold handleRequest, conclude, respond. handler_paths;
    intros Hreply Hstatus; try reflexivity; try discriminate Hreply;
    injection Hreply as <-; cbn [Status http_Error] in Hstatus;
    destruct Hstatus; discriminate.
Qed.

(** X15: an input that the locator rejects as invalid is answered by the
    domain endpoint with status 500, not 400; the body is the validation
    error with the input as it was given, and nothing is requested. *)
Theorem X15_invalid_domain_is_a_server_error (fuel : nat) (r : Request)
    (data : gmap string string) (fieldValue : string) :
  Method r = "POST" ->
  json_Decode (RequestBody r) = Ok data ->
  data !! "domain" = Some fieldValue ->
  isValidDomain fieldValue = false ->
  outcome (handleDomainEndpoint fuel r)
  = Replies (http_Error ("Failed to validate " +:+ fieldValue) 500)
  /\ requested (handleDomainEndpoint fuel r) = [].
Proof.
  intros Hmethod Hdecode Hfield Hinvalid.
  unfold handleDomainEndpoint, handleRequest.
  rewrite Hmethod, Hdecode, Hfield, (locate_invalid fieldValue Hinvalid).
  split; reflexivity.
Qed.

(** X16: the sitemap endpoint never shows an error of the resolver: its
    reply is the marshalled response or one of six fixed messages. *)
Theorem X16_sitemap_endpoint_hides_resolver_errors (fuel : nat) (r : Request)
    (reply : Reply) :
  outcome (handleSitemapEndpoint fuel r) = Replies reply ->
  (Status reply = 200%Z
   /\ exists urls, json_Marshal "sitemap" (Some urls) = Ok (Written reply))
  \/ In reply
       [ http_Error "Method not allowed" 405;
         http_Error "Invalid JSON payload" 400;
         http_Error "Missing 'sitemap' field in JSON payload" 400;
         http_Error "Invalid URL" 400;
         http_Error "Failed to parse sitemap" 500;
         http_Error "Failed to create JSON response" 500 ].
Proof.
  unfold handleSitemapEndpoint, handleRequest, conclude, respond.
  change (String.eqb "sitemap" "domain") with false.
  change (String.eqb "sitemap" "sitemap") with true.
  cbn iota.
  handler_paths; intros Hreply; try discriminate; injection Hreply as <-;
    try (right; cbn [In]; tauto).
  left. split; [reflexivity|]. eexists. eassumption.
Qed.

(** X17: the domain endpoint requests what the locator requests and then,
    when the locator returned an address, what resolving this address
    requests. *)
Theorem X17_domain_endpoint_locates_then_resolves (fuel : nat) (r : Request)
    (data : gmap string string) (fieldValue : string) :
  Method r = "POST" ->
  json_Decode (RequestBody r) = Ok data ->
  data !! "domain" = Some fieldValue ->
  requested (handleDomainEndpoint fuel r)
  = snd (getSitemapURLFromDomain fieldValue)
      ++ match fst (getSitemapURLFromDomain fieldValue) with
         | Ok sitemapURL => snd (parseSitemap fuel sitemapURL)
         | Err _ => []
         end.
Proof.
  intros Hmethod Hdecode Hfield.
  unfold handleDomainEndpoint, handleRequest.
  rewrite Hmethod, Hdecode, Hfield. cbn [negb String.eqb].
  change (String.eqb "domain" "domain") with true. cbn iota.
  destruct (getSitemapURLFromDomain fieldValue) as [[sitemapURL|err] t];
    cbn [fst snd requested].
  - destruct (parseSitemap fuel sitemapURL) as [resolved t']. reflexivity.
  - rewrite app_nil_r. reflexivity.
Qed.

(** X18: the handler never panics. *)
Theorem X18_handler_never_panics (fuel : nat) (r : Request) (requestType : string) :
  outcome (handleRequest fuel r requestType) <> HandlerPanics.
Proof.
  assert (Hsafe : forall url resolved t,
             parseSitemap fuel url = (resolved, t) ->
             conclude requestType resolved <> HandlerPanics).
  { intros url resolved t Hrun.
    pose proof (parseSitemap_never_panics fuel url) as Hnever.
    rewrite Hrun in Hnever. cbn [fst] in Hnever.
    destruct resolved as [[urls|err]| |]; cbn [conclude]; congruence. }
  unfold handleRequest.
  destruct (negb (String.eqb (Method r) "POST")); [discriminate|].
  destruct (json_Decode (RequestBody r)) as [data|]; [|discriminate].
  destruct (data !! requestType) as [fieldValue|]; [|discriminate].
  destruct (String.eqb requestType "domain").
  - destruct (getSitemapURLFromDomain fieldValue) as [[sitemapURL|err] t];
      [|discriminate].
    destruct (parseSitemap fuel sitemapURL) as [resolved t'] eqn:Hrun.
    exact (Hsafe _ _ _ Hrun).
  - destruct (String.eqb requestType "sitemap"); [|discriminate].
    destruct (url_ParseRequestURI fieldValue); [|discriminate].
    destruct (parseSitemap fuel fieldValue) as [resolved t] eqn:Hrun.
    exact (Hsafe _ _ _ Hrun).
Qed.

(** X19: a reply has status 200, 400, 405 or 500.  With status 200 it is
    of type [application/json] and its body is the marshalled response;
    with any other status it is plain text, one message ending with a line
    feed. *)
Theorem X19_replies_are_json_or_plain_text (fuel : nat) (r : Request)
    (requestType : string) (reply : Reply) :
  outcome (handleRequest fuel r requestType) = Replies reply ->
  (Status reply = 200%Z /\ ContentType reply = "application/json"
   /\ exists urls, json_Marshal requestType urls = Ok (Written reply))
  \/ ((Status reply = 400%Z \/ Status reply = 405%Z \/ Status reply = 500%Z)
      /\ ContentType reply = "text/plain; charset=utf-8"
      /\ exists msg, Written reply = msg +:+ String newline "").
Proof.
  unfold handleRequest, conclude, respond. handler_paths;
    intros Hreply; try discriminate; injection Hreply as <-;
    try (right; cbn [Status ContentType Written http_Error];
         split; [tauto|]; split; [reflexivity|]; eexists; reflexivity).
  all: left; split; [reflexivity|]; split; [reflexivity|]; eexists; eassumption.
Qed.

End HandlerFacts.

(** * Worked examples for the further properties *)

Lemma page_serves (V : World) (url body : string) (doc : Sitemap) :
  @http_Get V url = page body -> @xml_Unmarshal V body = Ok doc ->
  @serves V url doc.
Proof.
  intros Hget Hdoc. exists {| StatusCode := 200; Body := Ok body |}, body.
  split; [exact Hget | split; [reflexivity | exact Hdoc]].
Defined.

Lemma answered_404_same_pages (V : World) : same_pages V (answered_404 V).
Proof.
  split; [|reflexivity].
  intros url. cbn [answered_404 http_Get].
  destruct (@http_Get V url); reflexivity.
Defined.

(** The index that lists itself, by X2. *)
Lemma X2_witness :
  ~ (exists fuel urls,
        fst (@parseSitemap linked_site fuel "https://example.com/loop.xml")
        = Returns (Ok urls)).
Proof.
  intros (fuel & urls & Hres).
  refine (@X2_self_listing_index_never_resolves linked_site
            "https://example.com/loop.xml"
            {| URLs := [];
               Sitemaps := map sitemap_entry
                 ["https://example.com/a.xml"; "https://example.com/loop.xml"] |}
            _ _ _ fuel urls Hres).
  - apply (page_serves linked_site _ index_loop); reflexivity.
  - reflexivity.
  - right. left. reflexivity.
Defined.

(** The sample pages answered with status 404 resolve as before, by X3. *)
Lemma X3_witness :
  @parseSitemap (answered_404 sample) 2 "https://example.com/index.xml"
  = (Returns (Ok ["Sitemap index: https://example.com/a.xml";
                  "Sitemap index: https://example.com/b.xml"; "/x"; "/y"]),
     ["https://example.com/index.xml"; "https://example.com/a.xml";
      "https://example.com/b.xml"]).
Proof.
  rewrite <- (X3_resolver_ignores_status sample (answered_404 sample)
                (answered_404_same_pages sample) 2 "https://example.com/index.xml").
  reflexivity.
Defined.

(** The requests for the index of [a.xml] and [b.xml], by X4. *)
Lemma X4_witness :
  snd (parseSitemap 2 "https://example.com/index.xml")
  = ["https://example.com/index.xml"; "https://example.com/a.xml";
     "https://example.com/b.xml"].
Proof.
  refine (X4_index_requests_in_document_order 1 "https://example.com/index.xml"
            {| URLs := [];
               Sitemaps := map sitemap_entry
                 ["https://example.com/a.xml"; "https://example.com/b.xml"] |}
            [["/x"]; ["/y"]] _ _ _).
  - apply (sample_serves _ index_ab); reflexivity.
  - reflexivity.
  - repeat constructor.
Defined.

(** The error of the index with a child that cannot be decoded is that of
    the child, requested last, by X5. *)
Lemma X5_witness :
  exists (earlier : trace) (address : string),
    ["https://example.com/partial.xml"; "https://example.com/a.xml";
     "https://example.com/broken.xml"] = earlier ++ [address]
    /\ fails_at address (LibError "XML syntax error on line 1: unexpected EOF").
Proof.
  refine (X5_error_is_that_of_the_last_request 2
            "https://example.com/partial.xml" _ _ _).
  reflexivity.
Defined.

(** The list returned for the index of [a.xml] and [b.xml], by X6. *)
Lemma X6_witness :
  exists subs : list (list string),
    resolve_to 1 (map sitemap_entry
                    ["https://example.com/a.xml"; "https://example.com/b.xml"]) subs
    /\ ["Sitemap index: https://example.com/a.xml";
        "Sitemap index: https://example.com/b.xml"; "/x"; "/y"]
       = map child_marker
           (map sitemap_entry
              ["https://example.com/a.xml"; "https://example.com/b.xml"])
         ++ concat subs.
Proof.
  refine (X6_index_list_means_all_children_resolved 1
            "https://example.com/index.xml"
            {| URLs := [];
               Sitemaps := map sitemap_entry
                 ["https://example.com/a.xml"; "https://example.com/b.xml"] |}
            _ _ _ _).
  - apply (sample_serves _ index_ab); reflexivity.
  - reflexivity.
  - reflexivity.
Defined.

(** The address found for [example.com] is the third candidate, by X8. *)
Lemma X8_witness :
  "https://example.com/sitemap1.xml" <> ""
  /\ ((exists resp robotsTxt,
          client_Get "https://example.com/robots.txt" = Ok resp
          /\ StatusCode resp = StatusOK /\ Body resp = Ok robotsTxt
          /\ parseSitemapFromRobotsTxt robotsTxt = "https://example.com/sitemap1.xml"
          /\ ["https://example.com/robots.txt"; "https://example.com/test.xml";
              "https://example.com/sitemap.xml"; "https://example.com/sitemap1.xml"]
             = ["https://example.com/robots.txt"])
      \/ (exists location resp,
            In location sitemapLocations
            /\ "https://example.com/sitemap1.xml" = candidate "example.com" location
            /\ client_Get "https://example.com/sitemap1.xml" = Ok resp
            /\ StatusCode resp = StatusOK
            /\ last ["https://example.com/robots.txt"; "https://example.com/test.xml";
                     "https://example.com/sitemap.xml";
                     "https://example.com/sitemap1.xml"]
               = Some "https://example.com/sitemap1.xml")).
Proof.
  exact (X8_returned_address_is_declared_or_answered "example.com"
           "https://example.com/sitemap1.xml"
           ["https://example.com/robots.txt"; "https://example.com/test.xml";
            "https://example.com/sitemap.xml"; "https://example.com/sitemap1.xml"]
           eq_refl).
Defined.

(** A host that answers 404 throughout, by X9. *)
Lemma X9_witness :
  @getSitemapURLFromDomain bare_site "example.com"
  = (Err (Errorf "Couldn't find sitemap for example.com"),
     "https://example.com/robots.txt"
       :: map (candidate "example.com") sitemapLocations).
Proof.
  refine (@locate_not_found bare_site "example.com" not_found _ _ _ _).
  - reflexivity.
  - reflexivity.
  - left. discriminate.
  - apply Forall_forall. intros location _. exists not_found.
    split; [reflexivity | discriminate].
Defined.

(** The robots file of [example.org], by X10. *)
Lemma X10_witness :
  getSitemapURLFromDomain "example.org"
  = (Ok "https://example.org/s1.xml", ["https://example.org/robots.txt"]).
Proof.
  refine (X10_declared_address_ends_the_call "example.org"
            {| StatusCode := 200;
               Body := Ok (lines_of ["User-agent: *";
                                     "Sitemap: https://example.org/s1.xml"]) |}
            (lines_of ["User-agent: *"; "Sitemap: https://example.org/s1.xml"])
            ["User-agent: *"] [""] "https://example.org/s1.xml" _ _ _ _ _ _ _);
    try reflexivity.
  - repeat constructor.
  - discriminate.
Defined.

(** A robots file with lines ending in carriage return and line feed: the
    carriage return stays in the address, and the second directive is not
    read, by X11. *)
Lemma X11_witness :
  parseSitemapFromRobotsTxt
    (lines_of ["User-agent: *"]
       +:+ "Sitemap: " +:+ ("https://example.org/s1.xml" +:+ String "013"%char "")
       +:+ String newline "Sitemap: https://example.org/s2.xml")
  = "https://example.org/s1.xml" +:+ String "013"%char "".
Proof.
  refine (X11_first_directive_up_to_line_end ["User-agent: *"]
            ("https://example.org/s1.xml" +:+ String "013"%char "")
            (String newline "Sitemap: https://example.org/s2.xml") _ _ _ _).
  - repeat constructor.
  - repeat constructor.
  - reflexivity.
  - right. eexists. reflexivity.
Defined.

(** An address that is no request URI is refused without a request, by
    X14. *)
Lemma X14_witness :
  requested (handleRequest 2 (post (json_object "sitemap" "index.xml")) "sitemap")
  = [].
Proof.
  refine (X14_client_errors_are_decided_offline 2
            (post (json_object "sitemap" "index.xml")) "sitemap"
            (http_Error "Invalid URL" 400) _ _).
  - reflexivity.
  - left. reflexivity.
Defined.

(** An input that is no domain, by X15. *)
Lemma X15_witness :
  outcome (handleDomainEndpoint 2 (post (json_object "domain" "not a domain")))
  = Replies (http_Error "Failed to validate not a domain" 500)
  /\ requested (handleDomainEndpoint 2 (post (json_object "domain" "not a domain")))
     = [].
Proof.
  refine (X15_invalid_domain_is_a_server_error 2
            (post (json_object "domain" "not a domain"))
            {[ "domain" := "not a domain" ]} "not a domain" _ _ _ _);
    reflexivity.
Defined.

(** A sitemap that cannot be decoded, by X16: the reply does not say so. *)
Lemma X16_witness :
  (Status (http_Error "Failed to parse sitemap" 500) = 200%Z
   /\ exists urls,
       json_Marshal "sitemap" (Some urls)
       = Ok (Written (http_Error "Failed to parse sitemap" 500)))
  \/ In (http_Error "Failed to parse sitemap" 500)
       [ http_Error "Method not allowed" 405;
         http_Error "Invalid JSON payload" 400;
         http_Error "Missing 'sitemap' field in JSON payload" 400;
         http_Error "Invalid URL" 400;
         http_Error "Failed to parse sitemap" 500;
         http_Error "Failed to create JSON response" 500 ].
Proof.
  refine (X16_sitemap_endpoint_hides_resolver_errors 2
            (post (json_object "sitemap" "https://example.com/broken.xml"))
            (http_Error "Failed to parse sitemap" 500) _).
  reflexivity.
Defined.

(** The domain endpoint for [example.org]: the robots file, then the
    sitemap it declares, by X17. *)
Lemma X17_witness :
  requested (@handleDomainEndpoint linked_site sample_glue 2
               (post (json_object "domain" "example.org")))
  = ["https://example.org/robots.txt"; "https://example.org/s1.xml"].
Proof.
  refine (@X17_domain_endpoint_locates_then_resolves linked_site sample_glue 2
            (post (json_object "domain" "example.org"))
            {[ "domain" := "example.org" ]} "example.org" _ _ _);
    reflexivity.
Defined.

(** The reply of the sitemap endpoint for the index of [a.xml] and
    [b.xml], by X19. *)
Lemma X19_witness :
  let reply :=
    {| Status := 200; ContentType := "application/json";
       Written :=
         "{" +:+ quoted "type" +:+ ":" +:+ quoted "sitemap" +:+ ","
             +:+ quoted "urls" +:+ ":"
             +:+ json_array ["Sitemap index: https://example.com/a.xml";
                             "Sitemap index: https://example.com/b.xml";
                             "/x"; "/y"]
             +:+ "}" |} in
  (Status reply = 200%Z /\ ContentType reply = "application/json"
   /\ exists urls, json_Marshal "sitemap" urls = Ok (Written reply))
  \/ ((Status reply = 400%Z \/ Status reply = 405%Z \/ Status reply = 500%Z)
      /\ ContentType reply = "text/plain; charset=utf-8"
      /\ exists msg, Written reply = msg +:+ String newline "").
Proof.
  refine (X19_replies_are_json_or_plain_text 2
            (post (json_object "sitemap" "https://example.com/index.xml"))
            "sitemap" _ _).
  reflexivity.
Defined.
